(** * amex_to_gnucash: statement conversion, verified against its description

    A shallow embedding of [amex_to_gnucash.py].  The script reads a card
    statement and a food-delivery order history (both HTML), rewrites and
    categorises every transaction and writes a CSV file.

    What the Python libraries compute (string case mapping, whitespace
    stripping, [strptime], [float()], [Decimal()], the regular expression of
    the year) is a parameter of the development, collected in the class
    [PyLib]: every theorem holds whatever these functions return.  The
    documents are taken after [BeautifulSoup] has parsed them, as the
    elements the script asks for. *)

From Stdlib Require Import String Ascii List Bool ZArith NArith QArith Lia.
From Stdlib Require Import DecimalString Sorted.
Import ListNotations.
Open Scope string_scope.

(** ** Exceptions and results *)

Inductive exn : Type :=
| AttributeError
| ValueError
| IndexError
| TypeError
| InvalidOperation.   (* decimal.InvalidOperation, an ArithmeticError *)

Inductive result (A : Type) : Type :=
| Ok (a : A)
| Raise (e : exn).
Arguments Ok {A} a.
Arguments Raise {A} e.

Definition bind {A B : Type} (m : result A) (k : A -> result B) : result B :=
  match m with
  | Ok a => k a
  | Raise e => Raise e
  end.

Notation "x <- m ;; k" := (bind m (fun x => k))
  (at level 61, m at next level, right associativity).
Notation "' p <- m ;; k" := (bind m (fun x => match x with p => k end))
  (at level 61, p pattern, m at next level, right associativity).

(** [x.attr] where [x] may be [None]. *)
Definition attr {A : Type} (o : option A) : result A :=
  match o with
  | Some a => Ok a
  | None => Raise AttributeError
  end.

(** A library call that raises [e] when it rejects its argument. *)
Definition or_raise {A : Type} (e : exn) (o : option A) : result A :=
  match o with
  | Some a => Ok a
  | None => Raise e
  end.

(** ** Strings

    Python's [in], [replace] and [split] on [str], here on UTF-8 bytes (a
    valid UTF-8 needle matches a valid UTF-8 text at character boundaries
    only, so both agree). *)

Fixpoint contains (needle hay : string) : bool :=
  prefix needle hay ||
  match hay with
  | EmptyString => false
  | String _ rest => contains needle rest
  end.

Fixpoint replace_go (old new : string) (skip : nat) (s : string) : string :=
  match s with
  | EmptyString => EmptyString
  | String c rest =>
      match skip with
      | S n => replace_go old new n rest
      | O =>
          if prefix old s
          then new ++ replace_go old new (String.length old - 1) rest
          else String c (replace_go old new 0 rest)
      end
  end.

(** [s.replace(old, new)], [old] not empty. *)
Definition replace (old new s : string) : string := replace_go old new 0 s.

Fixpoint split_go (sep : string) (skip : nat) (cur : string) (s : string)
  : list string :=
  match s with
  | EmptyString => [cur]
  | String c rest =>
      match skip with
      | S n => split_go sep n cur rest
      | O =>
          if prefix sep s
          then cur :: split_go sep (String.length sep - 1) EmptyString rest
          else split_go sep 0 (cur ++ String c EmptyString) rest
      end
  end.

(** [s.split(sep)], [sep] not empty. *)
Definition split (sep s : string) : list string := split_go sep 0 EmptyString s.

Definition is_empty (s : string) : bool :=
  match s with
  | EmptyString => true
  | _ => false
  end.

(** ** Dates, floats and decimals *)

Record date : Type := mkdate { d_year : Z; d_month : Z; d_day : Z }.

Definition date_eqb (a b : date) : bool :=
  (d_year a =? d_year b)%Z && (d_month a =? d_month b)%Z
  && (d_day a =? d_day b)%Z.

(** A [float], represented by the decimal numeral that [str] prints for it
    (the shortest one that reads back as the same float, so the
    representation loses nothing): [(-1)^neg * coef * 10^exp]. *)
Inductive pyfloat : Type :=
| Ffinite (neg : bool) (coef : N) (exp : Z)
| Finf (neg : bool)
| Fnan.

(** [abs(x)] *)
Definition float_abs (x : pyfloat) : pyfloat :=
  match x with
  | Ffinite _ c e => Ffinite false c e
  | Finf _ => Finf false
  | Fnan => Fnan
  end.

(** [x < 0]: false for both zeros and for nan. *)
Definition float_lt0 (x : pyfloat) : bool :=
  match x with
  | Ffinite neg c _ => neg && negb (c =? 0)%N
  | Finf neg => neg
  | Fnan => false
  end.

Inductive decimal : Type :=
| Dfinite (neg : bool) (coef : N) (exp : Z)
| Dinf (neg : bool)
| Dnan (signaling : bool).

(** [Decimal(str(x))] *)
Definition Decimal_of_float (x : pyfloat) : decimal :=
  match x with
  | Ffinite neg c e => Dfinite neg c e
  | Finf neg => Dinf neg
  | Fnan => Dnan false
  end.

Definition decimal_value (neg : bool) (coef : N) (exp : Z) : Q :=
  let m := (inject_Z (Z.of_N coef) * Qpower (inject_Z 10) exp)%Q in
  if neg then Qopp m else m.

(** [a == b] on [Decimal]: numeric equality; a NaN equals nothing. *)
Definition decimal_eqb (a b : decimal) : bool :=
  match a, b with
  | Dfinite n1 c1 e1, Dfinite n2 c2 e2 =>
      Qeq_bool (decimal_value n1 c1 e1) (decimal_value n2 c2 e2)
  | Dinf n1, Dinf n2 => Bool.eqb n1 n2
  | _, _ => false
  end.

(** The precision of the default decimal context. *)
Definition prec : N := 28.

(** [d.quantize(Decimal('0.01'), rounding=ROUND_HALF_UP)].  The operation
    signals [InvalidOperation] on an infinity, on a signaling NaN, and when
    the rounded coefficient has more than [prec] digits. *)
Definition quantize_cents (d : decimal) : result decimal :=
  match d with
  | Dfinite neg coef exp =>
      let shift := (exp + 2)%Z in
      let coef' :=
        if (0 <=? shift)%Z then (coef * 10 ^ Z.to_N shift)%N
        else
          let p := (10 ^ Z.to_N (- shift))%N in
          let q := (coef / p)%N in
          let r := (coef mod p)%N in
          if (p <=? 2 * r)%N then (q + 1)%N else q in
      if (coef' <? 10 ^ prec)%N then Ok (Dfinite neg coef' (-2))
      else Raise InvalidOperation
  | Dinf _ => Raise InvalidOperation
  | Dnan false => Ok (Dnan false)
  | Dnan true => Raise InvalidOperation
  end.

(** ** The library functions the script calls *)

Class PyLib : Type := {
  (** [s.upper()], [s.lower()], [s.strip()] *)
  upper : string -> string;
  lower : string -> string;
  strip : string -> string;
  (** [datetime.strptime(s, '%d %b %Y')]; [None] is its [ValueError] *)
  strptime_dbY : string -> option date;
  (** [datetime.strptime(s, '%d %B %Y').date()] *)
  strptime_dBY : string -> option date;
  (** [d.strftime('%Y-%m-%d')] *)
  strftime_Ymd : date -> string;
  (** [float(s)]; [None] is its [ValueError] *)
  float_of_string : string -> option pyfloat;
  (** [Decimal(s)]; [None] is its [InvalidOperation] *)
  Decimal_of_string : string -> option decimal;
  (** group 1 of [re.search(r'end=(\d{4})-\d{2}-\d{2}', s)] *)
  re_search_end_year : string -> option string;
  (** the group is four digits *)
  re_search_end_year_nonempty :
    forall s y, re_search_end_year s = Some y -> y <> EmptyString
}.

(** ** Configuration *)

Definition CREDIT_CARD_ACCOUNT : string := "Total:Passivo:Cartão de Crédito:Amex".
Definition DEFAULT_EXPENSE_ACCOUNT : string := "Não classificado".

Definition ACCOUNT_RULES : list (string * list string) :=
  [ ("Despesas:Cachorro", ["GROOMING"]);
    ("Despesas:Celular", ["SMARTY"]);
    ("Despesas:Diversão", ["YOUTUBEPREMIUM"]);
    ("Despesas:Educação", ["RHODES AVENUE"; "BREEZY CLUB"]);
    ("Despesas:Saúde",
       ["BOOTS"; "MASSAGE"; "PHARMACY"; "FUSSY"; "SUNDAYS INSURANCE"]);
    ("Despesas:Supermercado",
       ["PACTCOFFEE"; "WAITROSE"; "SAINSBURY"; "OCADO"; "ASTRID BAKERY";
        "MORRISONS"; "ASDA"; "GAIL"; "BRAZILIAN CENTRE"]);
    ("Despesas:Vestuário", ["UNIQLO"; "HAIR-TRIBE"]);
    ("Total:Ativo:Conta corrente:Monzo", ["PAYMENT RECEIVED"]) ].

(** ** The delivery-order table

    [deliveroo_orders] is a [dict] from [(date, Decimal)] to a list of
    restaurant names.  Keys are compared with [==], entries keep their
    insertion order. *)

Definition key : Type := date * decimal.

Definition key_eqb (a b : key) : bool :=
  date_eqb (fst a) (fst b) && decimal_eqb (snd a) (snd b).

Definition dict : Type := list (key * list string).

(** [d[k]] when [k in d] *)
Fixpoint dict_get (d : dict) (k : key) : option (list string) :=
  match d with
  | [] => None
  | (k', v) :: rest => if key_eqb k' k then Some v else dict_get rest k
  end.

(** The table after the list stored under [k] became [v]. *)
Fixpoint dict_store (d : dict) (k : key) (v : list string) : dict :=
  match d with
  | [] => []
  | (k', v') :: rest =>
      if key_eqb k' k then (k', v) :: rest
      else (k', v') :: dict_store rest k v
  end.

(** [if k not in d: d[k] = []] followed by [d[k].append(name)] *)
Definition dict_append (d : dict) (k : key) (name : string) : dict :=
  match dict_get d k with
  | Some v => dict_store d k (v ++ [name])%list
  | None => (d ++ [(k, [name])])%list
  end.

(** ** Documents, messages and output *)

(** The result of [open] followed by [BeautifulSoup(f, 'html.parser')]. *)
Inductive opened (A : Type) : Type :=
| FileNotFound
| ReadError
| Opened (soup : A).
Arguments FileNotFound {A}.
Arguments ReadError {A}.
Arguments Opened {A} soup.

(** A [<td>]: its [.text] and the text of the first [<a>], of the first
    [<div class="font-weight-regular">] and of the first [<p>] inside it
    ([None] when [find] returns [None]). *)
Record td : Type := mktd {
  td_text : string;
  td_a : option string;
  td_div : option string;
  td_p : option string
}.

(** A [<tr data-testid="transaction-row-...">]: its [<td>]s and the text of
    the first [<span>] whose class matches [_badge_]. *)
Record tr : Type := mktr {
  tr_columns : list td;
  tr_badge : option string
}.

(** The statement: its HTML comments and the transaction rows of the
    [<tbody data-testid="axp-activity-feed-transactions-table-body">]. *)
Record amex_soup : Type := mkamex {
  amex_comments : list string;
  amex_table_body : option (list tr)
}.

(** An [<li class="OrderList-...">]: the texts of its
    [<p class="ccl-2d0aeb0c9725ce8b">]. *)
Definition order_item : Type := list string.
Definition deliveroo_soup : Type := list order_item.

Inductive message : Type :=
| WarnYearFallback
| WarnDeliverooNotFound (path : string)
| WarnDeliverooUnreadable
| MsgSkipOrder (e : exn)
| MsgFoundOrders (n : nat)
| ErrAmexNotFound (path : string)
| ErrAmexUnreadable
| ErrNoTable
| MsgNoTransactions
| MsgFoundTransactions (n : nat) (year : string)
| MsgSkipPending (description : string)
| MsgSkipPendingNoDescription
| MsgSkipRow (e : exn)
| MsgConverted (output_path : string)
| MsgImportHint
| MsgUsage
| Traceback (e : exn).   (* printed by the interpreter for an exception
                            that reaches the top level *)

(** A value handed to [csv.writer]. *)
Inductive field : Type :=
| Text (s : string)
| Number (x : pyfloat).

Definition record : Type := list field.

Definition HEADER : record :=
  [Text "Date"; Text "Description"; Text "Account"; Text "Amount Debit";
   Text "Amount Credit"; Text "Transfer Account"].

Inductive termination : Type :=
| Returned
| SysExit (code : Z)
| Unhandled (e : exn).

(** The status the interpreter exits with. *)
Definition exit_status (t : termination) : Z :=
  match t with
  | Returned => 0
  | SysExit code => code
  | Unhandled _ => 1
  end.

Record outcome : Type := mkoutcome {
  out_messages : list message;
  out_csv : option (string * list record);
  out_end : termination
}.

(** What the script reads.  The output file is taken to open for writing
    and to accept every row: an [open(output_path, 'w')] or a [writerow]
    that raises has no outcome here. *)
Record world : Type := mkworld {
  open_amex : string -> opened amex_soup;
  open_deliveroo : string -> opened deliveroo_soup;
  now_year : N                 (* datetime.now().year *)
}.

(** [str(n)] *)
Definition str_of_N (n : N) : string := NilZero.string_of_uint (N.to_uint n).

Definition NBSP : string :=
  String (ascii_of_nat 194) (String (ascii_of_nat 160) EmptyString).

Fixpoint last_error {A : Type} (l : list A) : option A :=
  match l with
  | [] => None
  | [a] => Some a
  | _ :: rest => last_error rest
  end.

Section Script.
Context {lib : PyLib}.

(** ** parse_year_from_comment *)

Fixpoint find_year (comments : list string) : option string :=
  match comments with
  | [] => None
  | comment :: rest =>
      if contains "saved from url" comment then
        match re_search_end_year comment with
        | Some y => Some y
        | None => find_year rest
        end
      else find_year rest
  end.

Definition parse_year_from_comment (soup : amex_soup) (now : N)
  : list message * string :=
  match find_year (amex_comments soup) with
  | Some y => ([], y)
  | None => ([WarnYearFallback], str_of_N now)
  end.

(** ** parse_deliveroo_orders *)

(** The body of the [try] for one order item, up to the lookup key. *)
Definition parse_order (item : order_item) : result (key * string) :=
  first <- attr (hd_error item) ;;
  let restaurant_name := strip first in
  details_text <- or_raise IndexError (last_error item) ;;
  match map strip (split "•" details_text) with
  | [amount_str; date_str] =>
      amount <- or_raise InvalidOperation
                  (Decimal_of_string
                     (strip (replace NBSP ""
                               (replace "€" "" (replace "£" "" amount_str))))) ;;
      date_obj <- or_raise ValueError (strptime_dBY date_str) ;;
      match amount with
      | Dnan true => Raise TypeError      (* hashing the key *)
      | _ => Ok ((date_obj, amount), restaurant_name)
      end
  | _ => Raise ValueError
  end.

Fixpoint parse_orders (items : list order_item) (orders : dict)
  : list message * result dict :=
  match items with
  | [] => ([], Ok orders)
  | item :: rest =>
      match parse_order item with
      | Ok (lookup_key, restaurant_name) =>
          parse_orders rest (dict_append orders lookup_key restaurant_name)
      | Raise AttributeError =>
          let (ms, r) := parse_orders rest orders in
          (MsgSkipOrder AttributeError :: ms, r)
      | Raise ValueError =>
          let (ms, r) := parse_orders rest orders in
          (MsgSkipOrder ValueError :: ms, r)
      | Raise IndexError =>
          let (ms, r) := parse_orders rest orders in
          (MsgSkipOrder IndexError :: ms, r)
      | Raise e => ([], Raise e)
      end
  end.

Definition count_orders (orders : dict) : nat :=
  list_sum (map (fun kv => List.length (snd kv)) orders).

Definition parse_deliveroo_orders (path : string) (f : opened deliveroo_soup)
  : list message * result dict :=
  match f with
  | FileNotFound => ([WarnDeliverooNotFound path], Ok [])
  | ReadError => ([WarnDeliverooUnreadable], Ok [])
  | Opened soup =>
      match parse_orders soup [] with
      | (ms, Ok orders) =>
          ((ms ++ [MsgFoundOrders (count_orders orders)])%list, Ok orders)
      | (ms, Raise e) => (ms, Raise e)
      end
  end.

(** ** get_account_and_description *)

(** The first account of [rules] one of whose keywords is in [text]. *)
Fixpoint scan_rules (rules : list (string * list string)) (text : string)
  : option string :=
  match rules with
  | [] => None
  | (rules_account, keywords) :: rest =>
      if existsb (fun keyword => contains keyword text) keywords
      then Some rules_account
      else scan_rules rest text
  end.

(** Returns the description, the account and the table as the call leaves
    it ([pop(0)] changes it in place). *)
Definition get_account_and_description
  (description : string) (date_obj : date) (amount_value : pyfloat)
  (deliveroo_orders : dict) : result (string * string * dict) :=
  let account := DEFAULT_EXPENSE_ACCOUNT in
  '(description, account, deliveroo_orders) <-
    (if contains "DELIVEROO" (upper description) then
       amount_decimal <- quantize_cents (Decimal_of_float amount_value) ;;
       let lookup_key := (date_obj, amount_decimal) in
       match dict_get deliveroo_orders lookup_key with
       | Some (restaurant_name :: rest) =>
           Ok ("Deliveroo: " ++ restaurant_name, "Despesas:Comida",
               dict_store deliveroo_orders lookup_key rest)
       | _ => Ok (description, "Despesas:Comida", deliveroo_orders)
       end
     else Ok (description, account, deliveroo_orders)) ;;
  match scan_rules ACCOUNT_RULES (upper description) with
  | Some rules_account => Ok (description, rules_account, deliveroo_orders)
  | None => Ok (description, account, deliveroo_orders)
  end.

(** ** process_html_file *)

(** What the loop carries: the table, the rows written so far (after the
    header) and the messages printed so far. *)
Record state : Type := mkstate {
  st_orders : dict;
  st_rows : list record;
  st_log : list message
}.

(** What the body of the [try] does when it raises nothing. *)
Inductive row_effect : Type :=
| Pending (m : message)
| Written (r : record) (orders : dict).

(** [columns[i]] *)
Definition column (columns : list td) (i : nat) : result td :=
  or_raise IndexError (nth_error columns i).

(** The message of a pending row: the inner [try]. *)
Definition pending_message (columns : list td) : result message :=
  c2 <- column columns 2 ;;
  match attr (td_a c2) with
  | Ok a => Ok (MsgSkipPending (strip a))
  | Raise AttributeError => Ok MsgSkipPendingNoDescription
  | Raise e => Raise e
  end.

(** What the [try] reads from a row that is not pending: the date, its
    formatted form, the description, the initials suffix and the amount. *)
Record fields : Type := mkfields {
  f_date : date;
  f_formatted_date : string;
  f_description : string;
  f_initials : string;
  f_amount : pyfloat
}.

Definition row_fields (year : string) (trx : tr) (columns : list td)
  : result fields :=
  c0 <- column columns 0 ;;
  date_div <- attr (td_div c0) ;;
  let date_str := strip date_div in
  let full_date_str := date_str ++ " " ++ year in
  date_obj <- or_raise ValueError (strptime_dbY full_date_str) ;;
  let formatted_date := strftime_Ymd date_obj in
  c2 <- column columns 2 ;;
  a <- attr (td_a c2) ;;
  let original_description := strip a in
  let supp_card_initials :=
    match tr_badge trx with
    | Some badge =>
        let initials := strip badge in
        if is_empty initials then "" else " (" ++ initials ++ ")"
    | None => ""
    end in
  c4 <- column columns 4 ;;
  p <- attr (td_p c4) ;;
  let amount_text := strip p in
  amount_value <- or_raise ValueError
                    (float_of_string
                       (replace " " "" (replace "," ""
                                          (replace "£" "" amount_text)))) ;;
  Ok (mkfields date_obj formatted_date original_description
        supp_card_initials amount_value).

(** The row handed to [writer.writerow]. *)
Definition csv_row (f : fields) (description expense_account : string)
  : record :=
  let final_description := description ++ f_initials f in
  let '(debit_amount, credit_amount) :=
    if float_lt0 (f_amount f)
    then (Text "", Number (float_abs (f_amount f)))
    else (Number (f_amount f), Text "") in
  [Text (f_formatted_date f); Text final_description; Text expense_account;
   debit_amount; credit_amount; Text CREDIT_CARD_ACCOUNT].

(** [status_text] of the second column says pending. *)
Definition is_pending (c1 : td) : bool :=
  contains "pending" (lower (strip (td_text c1))).

(** The body of the outer [try] for one row. *)
Definition row_body (year : string) (trx : tr) (columns : list td)
  (deliveroo_orders : dict) : result row_effect :=
  c1 <- column columns 1 ;;
  if is_pending c1 then
    m <- pending_message columns ;;
    Ok (Pending m)
  else
    f <- row_fields year trx columns ;;
    '(description, expense_account, deliveroo_orders) <-
      get_account_and_description (f_description f) (f_date f)
        (float_abs (f_amount f)) deliveroo_orders ;;
    Ok (Written (csv_row f description expense_account) deliveroo_orders).

Definition log (st : state) (m : message) : state :=
  mkstate (st_orders st) (st_rows st) (st_log st ++ [m])%list.

(** One turn of the loop; [Raise] is an exception that no handler takes. *)
Definition process_transaction (year : string) (st : state) (trx : tr)
  : result state :=
  let columns := tr_columns trx in
  if (List.length columns <? 5)%nat then Ok st
  else
    match row_body year trx columns (st_orders st) with
    | Ok (Pending m) => Ok (log st m)
    | Ok (Written r orders) =>
        Ok (mkstate orders (st_rows st ++ [r])%list (st_log st))
    | Raise AttributeError => Ok (log st (MsgSkipRow AttributeError))
    | Raise ValueError => Ok (log st (MsgSkipRow ValueError))
    | Raise e => Raise e
    end.

(** The [for] loop: the final state, and the exception that ended it. *)
Fixpoint process_transactions (year : string) (trxs : list tr) (st : state)
  : state * option exn :=
  match trxs with
  | [] => (st, None)
  | trx :: rest =>
      match process_transaction year st trx with
      | Ok st' => process_transactions year rest st'
      | Raise e => (st, Some e)
      end
  end.

Definition process_html_file (w : world)
  (amex_path deliveroo_path output_path : string) : outcome :=
  match open_amex w amex_path with
  | FileNotFound => mkoutcome [ErrAmexNotFound amex_path] None (SysExit 1)
  | ReadError => mkoutcome [ErrAmexUnreadable] None (SysExit 1)
  | Opened soup =>
      let (m1, year) := parse_year_from_comment soup (now_year w) in
      if is_empty year then mkoutcome m1 None (SysExit 1)
      else
        let (m2, parsed) :=
          parse_deliveroo_orders deliveroo_path
            (open_deliveroo w deliveroo_path) in
        match parsed with
        | Raise e =>
            mkoutcome (m1 ++ m2 ++ [Traceback e])%list None (Unhandled e)
        | Ok deliveroo_orders =>
            match amex_table_body soup with
            | None =>
                mkoutcome (m1 ++ m2 ++ [ErrNoTable])%list None (SysExit 1)
            | Some [] =>
                mkoutcome (m1 ++ m2 ++ [MsgNoTransactions])%list None Returned
            | Some transactions =>
                let found :=
                  MsgFoundTransactions (List.length transactions) year in
                let (st, raised) :=
                  process_transactions year (rev transactions)
                    (mkstate deliveroo_orders [] []) in
                let csv := Some (output_path, HEADER :: st_rows st) in
                match raised with
                | Some e =>
                    mkoutcome
                      (m1 ++ m2 ++ found :: st_log st ++ [Traceback e])%list
                      csv (Unhandled e)
                | None =>
                    mkoutcome
                      (m1 ++ m2 ++ found :: st_log st
                       ++ [MsgConverted output_path; MsgImportHint])%list
                      csv Returned
                end
            end
        end
  end.

(** ** main *)

Definition main (w : world) (argv : list string) : outcome :=
  match argv with
  | [_; amex_file; deliveroo_file] =>
      process_html_file w amex_file deliveroo_file
        "amex_gnucash_categorized.csv"
  | _ => mkoutcome [MsgUsage] None (SysExit 1)
  end.

End Script.

(** ** A reference library on ASCII text

    The library functions on ASCII text, short numerals and English month
    names, to run the script on concrete documents. *)

Definition upper_char (c : ascii) : ascii :=
  let n := nat_of_ascii c in
  if ((97 <=? n) && (n <=? 122))%nat then ascii_of_nat (n - 32) else c.

Definition lower_char (c : ascii) : ascii :=
  let n := nat_of_ascii c in
  if ((65 <=? n) && (n <=? 90))%nat then ascii_of_nat (n + 32) else c.

Fixpoint map_string (f : ascii -> ascii) (s : string) : string :=
  match s with
  | EmptyString => EmptyString
  | String c rest => String (f c) (map_string f rest)
  end.

Definition ascii_upper : string -> string := map_string upper_char.
Definition ascii_lower : string -> string := map_string lower_char.

Definition is_space (c : ascii) : bool :=
  let n := nat_of_ascii c in
  (((9 <=? n) && (n <=? 13)) || ((28 <=? n) && (n <=? 32)))%nat.

Fixpoint lstrip (s : string) : string :=
  match s with
  | EmptyString => EmptyString
  | String c rest => if is_space c then lstrip rest else s
  end.

Fixpoint rev_string (acc s : string) : string :=
  match s with
  | EmptyString => acc
  | String c rest => rev_string (String c acc) rest
  end.

Definition ascii_strip (s : string) : string :=
  rev_string "" (lstrip (rev_string "" (lstrip s))).

Definition is_digit (c : ascii) : bool :=
  let n := nat_of_ascii c in ((48 <=? n) && (n <=? 57))%nat.

Fixpoint all_digits (s : string) : bool :=
  match s with
  | EmptyString => true
  | String c rest => is_digit c && all_digits rest
  end.

Fixpoint digits_value (acc : N) (s : string) : N :=
  match s with
  | EmptyString => acc
  | String c rest => digits_value (10 * acc + (N_of_ascii c - 48))%N rest
  end.

(** A non-empty run of digits. *)
Definition number (s : string) : option N :=
  if is_empty s || negb (all_digits s) then None
  else Some (digits_value 0 s).

Fixpoint words_go (cur : string) (s : string) : list string :=
  match s with
  | EmptyString => if is_empty cur then [] else [cur]
  | String c rest =>
      if is_space c
      then (if is_empty cur then words_go "" rest
            else cur :: words_go "" rest)
      else words_go (cur ++ String c "") rest
  end.

Definition words (s : string) : list string := words_go "" s.

Fixpoint index_of (x : string) (l : list string) (i : Z) : option Z :=
  match l with
  | [] => None
  | y :: rest => if String.eqb x y then Some i else index_of x rest (i + 1)%Z
  end.

Definition MONTHS_ABBR : list string :=
  ["JAN"; "FEB"; "MAR"; "APR"; "MAY"; "JUN";
   "JUL"; "AUG"; "SEP"; "OCT"; "NOV"; "DEC"].

Definition MONTHS_FULL : list string :=
  ["JANUARY"; "FEBRUARY"; "MARCH"; "APRIL"; "MAY"; "JUNE"; "JULY"; "AUGUST";
   "SEPTEMBER"; "OCTOBER"; "NOVEMBER"; "DECEMBER"].

Definition is_leap (y : Z) : bool :=
  ((y mod 4 =? 0) && (negb (y mod 100 =? 0) || (y mod 400 =? 0)))%Z.

Definition days_in_month (y m : Z) : Z :=
  if (m =? 2)%Z then (if is_leap y then 29 else 28)
  else if ((m =? 4) || (m =? 6) || (m =? 9) || (m =? 11))%Z then 30
  else 31.

(** [day month year], the month looked up in [months]. *)
Definition parse_date (months : list string) (s : string) : option date :=
  match words s with
  | [d; m; y] =>
      match number d, index_of (ascii_upper m) months 1, number y with
      | Some dn, Some mn, Some yn =>
          let dz := Z.of_N dn in
          let yz := Z.of_N yn in
          if ((String.length d <=? 2)%nat && (String.length y =? 4)%nat
              && (1 <=? dz)%Z && (dz <=? days_in_month yz mn)%Z
              && (1 <=? yz)%Z)
          then Some (mkdate yz mn dz)
          else None
      | _, _, _ => None
      end
  | _ => None
  end.

Fixpoint zeros (n : nat) : string :=
  match n with
  | O => EmptyString
  | S k => String "0" (zeros k)
  end.

Definition zero_pad (width : nat) (z : Z) : string :=
  let s := str_of_N (Z.to_N z) in
  zeros (width - String.length s) ++ s.

Definition format_Ymd (d : date) : string :=
  zero_pad 4 (d_year d) ++ "-" ++ zero_pad 2 (d_month d) ++ "-"
  ++ zero_pad 2 (d_day d).

(** The sign, the integer digits and the fraction digits of a numeral. *)
Definition parse_numeral (s : string) : option (bool * string * string) :=
  let '(neg, body) :=
    match s with
    | String "-" rest => (true, rest)
    | String "+" rest => (false, rest)
    | _ => (false, s)
    end in
  match split "." body with
  | [i] =>
      if all_digits i && negb (is_empty i) then Some (neg, i, "") else None
  | [i; f] =>
      if all_digits i && all_digits f && negb (is_empty (i ++ f))
      then Some (neg, i, f) else None
  | _ => None
  end.

(** The fraction digits without their trailing zeros. *)
Definition trim_zeros (f : string) : string :=
  let fix go (s : string) : string :=
    match s with
    | EmptyString => EmptyString
    | String c rest => if Ascii.eqb c "0" then go rest else s
    end in
  rev_string "" (go (rev_string "" f)).

(** [float(s)] on "inf", "infinity" and "nan", in any case and with a
    sign. *)
Definition parse_special (s : string) : option pyfloat :=
  let '(neg, body) :=
    match s with
    | String "-" rest => (true, rest)
    | String "+" rest => (false, rest)
    | _ => (false, s)
    end in
  let name := ascii_lower body in
  if String.eqb name "inf" || String.eqb name "infinity"
  then Some (Finf neg)
  else if String.eqb name "nan" then Some Fnan else None.

(** [float(s)] on those, and on a numeral of at most 15 digits, which
    [str] prints back digit for digit, with one fraction digit at least. *)
Definition parse_float (s : string) : option pyfloat :=
  match parse_special s with
  | Some x => Some x
  | None =>
      match parse_numeral s with
      | Some (neg, i, f) =>
          let f' := if is_empty (trim_zeros f) then "0" else trim_zeros f in
          if (String.length (i ++ f') <=? 15)%nat
          then Some (Ffinite neg (digits_value 0 (i ++ f'))
                       (- Z.of_nat (String.length f')))
          else None
      | None => None
      end
  end.

(** [Decimal(s)] on a numeral. *)
Definition parse_decimal (s : string) : option decimal :=
  match parse_numeral s with
  | Some (neg, i, f) =>
      Some (Dfinite neg (digits_value 0 (i ++ f))
              (- Z.of_nat (String.length f)))
  | None => None
  end.

Definition match_end_date (s : string) : option string :=
  match s with
  | String "e" (String "n" (String "d" (String "="
      (String y1 (String y2 (String y3 (String y4 (String "-"
        (String m1 (String m2 (String "-"
          (String d1 (String d2 _))))))))))))) =>
      if is_digit y1 && is_digit y2 && is_digit y3 && is_digit y4
         && is_digit m1 && is_digit m2 && is_digit d1 && is_digit d2
      then Some (String y1 (String y2 (String y3 (String y4 ""))))
      else None
  | _ => None
  end.

Fixpoint search_end_year (s : string) : option string :=
  match match_end_date s with
  | Some y => Some y
  | None =>
      match s with
      | EmptyString => None
      | String _ rest => search_end_year rest
      end
  end.

#[export] Instance ascii_lib : PyLib.
Proof.
  refine {| upper := ascii_upper;
            lower := ascii_lower;
            strip := ascii_strip;
            strptime_dbY := parse_date MONTHS_ABBR;
            strptime_dBY := parse_date MONTHS_FULL;
            strftime_Ymd := format_Ymd;
            float_of_string := parse_float;
            Decimal_of_string := parse_decimal;
            re_search_end_year := search_end_year;
            re_search_end_year_nonempty := _ |}.
  intros s; induction s as [|c s IH]; intros y Hy.
  - discriminate Hy.
  - cbn [search_end_year] in Hy.
    destruct (match_end_date (String c s)) as [y'|] eqn:E.
    + injection Hy as <-. unfold match_end_date in E.
      repeat
        match type of E with
        | match ?x with _ => _ end = _ => destruct x; try discriminate E
        end;
        injection E as <-; discriminate.
    + apply IH; exact Hy.
Defined.

(** ** Vocabulary of the statements *)

Section Vocabulary.
Context {lib : PyLib}.

(** [c] is [coef * 10^exp] in hundredths, rounded to the nearest integer,
    a half going up. *)
Definition half_up_cents (coef : N) (exp : Z) (c : N) : Prop :=
  if (0 <=? exp + 2)%Z then c = (coef * 10 ^ Z.to_N (exp + 2))%N
  else
    let p := (10 ^ Z.to_N (- (exp + 2)))%N in
    (2 * c * p <= 2 * coef + p /\ 2 * coef + p < 2 * (c + 1) * p)%N.

(** The account of the first rule with a keyword in the upper-cased
    [text], [default] when there is none. *)
Definition account_for (default text : string) : string :=
  match scan_rules ACCOUNT_RULES (upper text) with
  | Some rules_account => rules_account
  | None => default
  end.

(** The rule at position [i] is the first one with a keyword in [text],
    and its account is [account]. *)
Definition first_match (rules : list (string * list string)) (text : string)
  (i : nat) (account : string) : Prop :=
  exists keywords keyword,
    nth_error rules i = Some (account, keywords)
    /\ In keyword keywords /\ contains keyword text = true
    /\ forall j account' keywords' keyword',
         (j < i)%nat -> nth_error rules j = Some (account', keywords') ->
         In keyword' keywords' -> contains keyword' text = false.

(** No rule has a keyword in [text]. *)
Definition no_match (rules : list (string * list string)) (text : string)
  : Prop :=
  forall account keywords keyword,
    In (account, keywords) rules -> In keyword keywords ->
    contains keyword text = false.

(** A transaction as [get_account_and_description] receives it. *)
Definition call : Type := (string * date * pyfloat)%type.

(** Successive calls on the same table, as the loop of
    [process_html_file] makes them. *)
Fixpoint categorize_all (calls : list call) (orders : dict)
  : result (list (string * string) * dict) :=
  match calls with
  | [] => Ok ([], orders)
  | (description, date_obj, amount) :: rest =>
      '(d, a, orders') <-
        get_account_and_description description date_obj amount orders ;;
      '(outs, final) <- categorize_all rest orders' ;;
      Ok ((d, a) :: outs, final)
  end.

(** The key a call looks up, when it looks one up. *)
Definition lookup_key_of (c : call) : option key :=
  let '(description, date_obj, amount) := c in
  if contains "DELIVEROO" (upper description) then
    match quantize_cents (Decimal_of_float amount) with
    | Ok q => Some (date_obj, q)
    | Raise _ => None
    end
  else None.

Definition looks_up (k : key) (c : call) : bool :=
  match lookup_key_of c with
  | Some k' => key_eqb k' k
  | None => false
  end.

(** How many of the first [i] calls look up [k]. *)
Definition hits_before (k : key) (calls : list call) (i : nat) : nat :=
  List.length (filter (looks_up k) (firstn i calls)).

(** A call that is not stopped by [quantize]. *)
Definition quantizes (c : call) : Prop :=
  let '(description, _, amount) := c in
  contains "DELIVEROO" (upper description) = true ->
  exists q, quantize_cents (Decimal_of_float amount) = Ok q.

Definition candidates (orders : dict) (k : key) : list string :=
  match dict_get orders k with
  | Some names => names
  | None => []
  end.

(** The restaurants of the order items filed under [k], in file order. *)
Fixpoint order_names (items : list order_item) (k : key) : list string :=
  match items with
  | [] => []
  | item :: rest =>
      match parse_order item with
      | Ok (k', name) =>
          if key_eqb k' k then name :: order_names rest k
          else order_names rest k
      | Raise _ => order_names rest k
      end
  end.

(** A row with fewer than five cells. *)
Definition short (trx : tr) : Prop :=
  (List.length (tr_columns trx) < 5)%nat.

(** A row of five cells or more, not pending, whose date, description or
    amount cannot be read. *)
Definition malformed (year : string) (trx : tr) : Prop :=
  exists c0 c1 c2 c3 c4 more,
    tr_columns trx = c0 :: c1 :: c2 :: c3 :: c4 :: more
    /\ is_pending c1 = false
    /\ (td_div c0 = None
        \/ (exists s, td_div c0 = Some s
                      /\ strptime_dbY (strip s ++ " " ++ year) = None)
        \/ td_a c2 = None
        \/ td_p c4 = None
        \/ (exists p, td_p c4 = Some p
                      /\ float_of_string
                           (replace " " "" (replace "," ""
                              (replace "£" "" (strip p)))) = None)).

(** The second cell of the row says pending. *)
Definition pending (trx : tr) : Prop :=
  exists c1, nth_error (tr_columns trx) 1 = Some c1 /\ is_pending c1 = true.

(** A row of five cells or more, not pending, that is read in full. *)
Definition well_formed (year : string) (trx : tr) : bool :=
  (5 <=? List.length (tr_columns trx))%nat
  && match nth_error (tr_columns trx) 1 with
     | Some c1 => negb (is_pending c1)
     | None => false
     end
  && match row_fields year trx (tr_columns trx) with
     | Ok _ => true
     | Raise _ => false
     end.

(** [r] is the CSV row of [trx], under some description and account. *)
Definition written_from (year : string) (r : record) (trx : tr) : Prop :=
  exists f description account,
    row_fields year trx (tr_columns trx) = Ok f
    /\ r = csv_row f description account.


(** The row does not stop the loop at [quantize]. *)
Definition row_quantizes (year : string) (trx : tr) : Prop :=
  forall f, row_fields year trx (tr_columns trx) = Ok f ->
            quantizes (f_description f, f_date f, float_abs (f_amount f)).

(** Two states with the same table and the same rows written. *)
Definition same_data (s1 s2 : state) : Prop :=
  st_orders s1 = st_orders s2 /\ st_rows s1 = st_rows s2.

Definition is_error (m : message) : bool :=
  match m with
  | ErrAmexNotFound _ | ErrAmexUnreadable | ErrNoTable | Traceback _ => true
  | _ => false
  end.


(** The calls the loop makes, one for each row read in full. *)
Definition calls_of (year : string) (trxs : list tr) : list call :=
  flat_map
    (fun trx =>
       if well_formed year trx then
         match row_fields year trx (tr_columns trx) with
         | Ok f => [(f_description f, f_date f, float_abs (f_amount f))]
         | Raise _ => []
         end
       else [])
    trxs.

(** The year the statement is processed with. *)
Definition statement_year (w : world) (soup : amex_soup) : string :=
  snd (parse_year_from_comment soup (now_year w)).

End Vocabulary.

(** ** Documents of the examples *)

Definition july_13 : date := mkdate 2025 7 13.

(** [8.5] as a float, [8.50] as a decimal. *)
Definition eight_fifty : pyfloat := Ffinite false 85 (-1).
Definition eight_fifty_key : key := (july_13, Dfinite false 850 (-2)).

Definition gail_orders : dict := [(eight_fifty_key, ["GAIL's Bakery"])].

(** An order history with two orders of 8.50 on the same day. *)
Definition two_orders : deliveroo_soup :=
  [ ["GAIL's Bakery"; "£ 8.50 • 13 July 2025"];
    ["Pizza Pilgrims"; "£8.50 • 13 July 2025"] ].

Definition two_orders_table : dict :=
  [(eight_fifty_key, ["GAIL's Bakery"; "Pizza Pilgrims"])].

(** Three Deliveroo charges of 8.50 on that day. *)
Definition three_calls : list call :=
  [ ("DELIVEROO", july_13, eight_fifty);
    ("Deliveroo London", july_13, eight_fifty);
    ("deliveroo.co.uk", july_13, eight_fifty) ].

Definition cell (text : string) : td := mktd text None None None.
Definition date_cell (s : string) : td := mktd s None (Some s) None.
Definition description_cell (s : string) : td := mktd s (Some s) None None.
Definition amount_cell (s : string) : td := mktd s None None (Some s).

(** A row of five cells. *)
Definition row (day status description amount : string) : tr :=
  mktr [date_cell day; cell status; description_cell description;
        cell ""; amount_cell amount] None.

Definition boots_row : tr := row "13 Jul" "" "BOOTS 0123" "£12.50".
Definition pending_row : tr := row "14 Jul" "Pending" "UNIQLO" "£30.00".
Definition bad_date_row : tr := row "Jul 13" "" "ASDA" "£3.00".
Definition refund_row : tr :=
  row "12 Jul" "" "PAYMENT RECEIVED - THANK YOU" "-£100.00".
Definition deliveroo_row : tr := row "13 Jul" "" "DELIVEROO" "£8.50".

(** A row of four cells. *)
Definition short_row : tr :=
  mktr [date_cell "13 Jul"; cell ""; description_cell "BOOTS 0123";
        amount_cell "£12.50"] None.

Definition statement_comment : string :=
  "saved from url=(0070)https://global.americanexpress.com/activity?end=2025-07-20".

(** A world whose statement has the given table, and whose order history
    opens as given. *)
Definition example_world (table : option (list tr))
  (orders : opened deliveroo_soup) : world :=
  mkworld (fun _ => Opened (mkamex [statement_comment] table))
          (fun _ => orders) 2026.

(** A world without the statement file. *)
Definition no_statement_world : world :=
  mkworld (fun _ => FileNotFound) (fun _ => Opened two_orders) 2026.

Definition example_rows : list tr :=
  [refund_row; deliveroo_row; boots_row].

(** The loop before its first row, with one order in the table. *)
Definition gail_state : state := mkstate gail_orders [] [].

(** ** Vocabulary of the further properties *)

Section MoreVocabulary.
Context {lib : PyLib}.

(** The comment gives no year: it is not the comment of the saved URL, or
    has no end date. *)
Definition no_year (comment : string) : Prop :=
  contains "saved from url" comment = false
  \/ re_search_end_year comment = None.

(** The order item is read in full. *)
Definition order_parses (item : order_item) : bool :=
  match parse_order item with
  | Ok _ => true
  | Raise _ => false
  end.

(** No two entries of the table have equal keys. *)
Definition distinct_keys (d : dict) : Prop :=
  ForallOrdPairs (fun a b => key_eqb a b = false) (map fst d).

(** The accounts the configuration names. *)
Definition CONFIGURED_ACCOUNTS : list string :=
  (map fst ACCOUNT_RULES ++ ["Despesas:Comida"; DEFAULT_EXPENSE_ACCOUNT])%list.

Definition is_short (trx : tr) : bool :=
  (List.length (tr_columns trx) <? 5)%nat.

(** The messages the loop prints for a row it skips. *)
Definition is_row_message (m : message) : bool :=
  match m with
  | MsgSkipPending _ | MsgSkipPendingNoDescription | MsgSkipRow _ => true
  | _ => false
  end.

(** [rows] are the CSV rows of [sources], one for each and in that order:
    each row is made of the fields of its statement row, with the
    description and the account that [get_account_and_description] returns
    for that statement row on the table left by the rows before it,
    [orders] for the first. *)
Fixpoint written_in_turn (year : string) (orders : dict)
  (rows : list record) (sources : list tr) : Prop :=
  match rows, sources with
  | [], [] => True
  | r :: rows', trx :: sources' =>
      exists f d a orders',
        row_fields year trx (tr_columns trx) = Ok f
        /\ get_account_and_description (f_description f) (f_date f)
             (float_abs (f_amount f)) orders = Ok (d, a, orders')
        /\ r = csv_row f d a
        /\ written_in_turn year orders' rows' sources'
  | _, _ => False
  end.

(** An order item with a name, whose last text is "<amount> • <date>" with
    an amount that [Decimal()] rejects. *)
Definition rejected_amount (item : order_item) : Prop :=
  exists first details amount_str date_str,
    hd_error item = Some first
    /\ last_error item = Some details
    /\ map strip (split "•" details) = [amount_str; date_str]
    /\ Decimal_of_string
         (strip (replace NBSP ""
                   (replace "€" "" (replace "£" "" amount_str)))) = None.

(** An order item that is read in full, or skipped with a message. *)
Definition parsed_or_skipped (item : order_item) : Prop :=
  order_parses item = true
  \/ parse_order item = Raise AttributeError
  \/ parse_order item = Raise ValueError.

End MoreVocabulary.

(** An order history with an item without text and a cancelled order. *)
Definition mixed_orders : deliveroo_soup :=
  [ ["GAIL's Bakery"; "£ 8.50 • 13 July 2025"];
    [];
    ["Pizza Pilgrims"; "Cancelled"] ].

(** A statement with a row of each kind. *)
Definition mixed_rows : list tr :=
  (example_rows ++ [pending_row; bad_date_row; short_row])%list.

Definition mixed_world : world :=
  example_world (Some mixed_rows) (Opened two_orders).

(** The CSV file written for [example_rows] with the orders of
    [two_orders]. *)
Definition example_csv : list record :=
  [ HEADER;
    [Text "2025-07-13"; Text "BOOTS 0123"; Text "Despesas:Saúde";
     Number (Ffinite false 125 (-1)); Text ""; Text CREDIT_CARD_ACCOUNT];
    [Text "2025-07-13"; Text "Deliveroo: GAIL's Bakery";
     Text "Despesas:Supermercado"; Number eight_fifty; Text "";
     Text CREDIT_CARD_ACCOUNT];
    [Text "2025-07-12"; Text "PAYMENT RECEIVED - THANK YOU";
     Text "Total:Ativo:Conta corrente:Monzo"; Text "";
     Number (Ffinite false 1000 (-1)); Text CREDIT_CARD_ACCOUNT] ].

(** The key of an order of 1.00 on the same day. *)
Definition one_pound_key : key := (july_13, Dfinite false 100 (-2)).

Definition script_argv : list string :=
  ["amex_to_gnucash.py"; "amex.html"; "orders.html"].



(** A second charge of 12.50 on the day of [boots_row], and the records of
    the two. *)
Definition uniqlo_row : tr := row "13 Jul" "" "UNIQLO" "£12.50".

Definition boots_record : record :=
  [Text "2025-07-13"; Text "BOOTS 0123"; Text "Despesas:Saúde";
   Number (Ffinite false 125 (-1)); Text ""; Text CREDIT_CARD_ACCOUNT].

Definition uniqlo_record : record :=
  [Text "2025-07-13"; Text "UNIQLO"; Text "Despesas:Vestuário";
   Number (Ffinite false 125 (-1)); Text ""; Text CREDIT_CARD_ACCOUNT].

(** An order history whose second order has an amount that is no number. *)
Definition bad_amount_orders : deliveroo_soup :=
  [ ["GAIL's Bakery"; "£ 8.50 • 13 July 2025"];
    ["Pizza Pilgrims"; "£ abc • 13 July 2025"] ].

(** * Categorisation *)

Section Categorisation.
Context {lib : PyLib}.

Lemma scan_rules_first_match rules text account :
  scan_rules rules text = Some account ->
  exists i, first_match rules text i account.
Proof.
  induction rules as [|[acct kws] rules IH]; cbn [scan_rules]; [discriminate|].
  destruct (existsb (fun keyword => contains keyword text) kws) eqn:E.
  - intros [= <-]. apply existsb_exists in E as (kw & Hin & Hkw).
    exists 0%nat, kws, kw. repeat split; auto. intros j ? ? ? Hj. lia.
  - intros H. destruct (IH H) as (i & kws' & kw & Hnth & Hin & Hkw & Hbefore).
    exists (S i), kws', kw. repeat split; auto.
    intros [|j] acct' kws'' kw' Hj Hn Hin'.
    + cbn in Hn. injection Hn as <- <-.
      destruct (contains kw' text) eqn:C; [|reflexivity].
      assert (existsb (fun keyword => contains keyword text) kws = true)
        by (apply existsb_exists; eauto).
      congruence.
    + apply (Hbefore j acct' kws'' kw'); [lia|exact Hn|exact Hin'].
Qed.

Lemma scan_rules_no_match rules text :
  scan_rules rules text = None -> no_match rules text.
Proof.
  induction rules as [|[acct kws] rules IH]; cbn [scan_rules].
  - intros _ ? ? ? [].
  - destruct (existsb (fun keyword => contains keyword text) kws) eqn:E;
      [discriminate|].
    intros H account keywords keyword [Heq | Hin] Hkw.
    + injection Heq as <- <-.
      destruct (contains keyword text) eqn:C; [|reflexivity].
      assert (existsb (fun keyword => contains keyword text) kws = true)
        by (apply existsb_exists; eauto).
      congruence.
    + exact (IH H account keywords keyword Hin Hkw).
Qed.

Lemma no_match_scan_rules rules text :
  no_match rules text -> scan_rules rules text = None.
Proof.
  induction rules as [|[acct kws] rules IH]; cbn [scan_rules]; [reflexivity|].
  intros H.
  destruct (existsb (fun keyword => contains keyword text) kws) eqn:E.
  - apply existsb_exists in E as (kw & Hin & Hkw).
    rewrite (H acct kws kw) in Hkw; [discriminate|left; reflexivity|exact Hin].
  - apply IH. intros a k w Hin. apply (H a k w). right; exact Hin.
Qed.

(** The function, one case per path through it. *)
Lemma get_account_and_description_cases description date_obj amount orders :
  get_account_and_description description date_obj amount orders =
  if contains "DELIVEROO" (upper description) then
    match quantize_cents (Decimal_of_float amount) with
    | Raise e => Raise e
    | Ok q =>
        match dict_get orders (date_obj, q) with
        | Some (name :: rest) =>
            Ok ("Deliveroo: " ++ name,
                account_for "Despesas:Comida" ("Deliveroo: " ++ name),
                dict_store orders (date_obj, q) rest)
        | _ => Ok (description, account_for "Despesas:Comida" description,
                   orders)
        end
    end
  else Ok (description, account_for DEFAULT_EXPENSE_ACCOUNT description,
           orders).
Proof.
  unfold get_account_and_description, account_for.
  destruct (contains "DELIVEROO" (upper description)); cbn [bind].
  - destruct (quantize_cents (Decimal_of_float amount)) as [q|e]; cbn [bind];
      [|reflexivity].
    destruct (dict_get orders (date_obj, q)) as [[|name rest]|]; cbn [bind];
      match goal with
      | |- context [scan_rules ACCOUNT_RULES ?t] =>
          destruct (scan_rules ACCOUNT_RULES t); reflexivity
      end.
  - destruct (scan_rules ACCOUNT_RULES (upper description)); reflexivity.
Qed.

Lemma account_for_spec default text :
  (exists i, first_match ACCOUNT_RULES (upper text) i (account_for default text))
  \/ (no_match ACCOUNT_RULES (upper text) /\ account_for default text = default).
Proof.
  unfold account_for.
  destruct (scan_rules ACCOUNT_RULES (upper text)) as [a|] eqn:E.
  - left. exact (scan_rules_first_match _ _ _ E).
  - right. split; [exact (scan_rules_no_match _ _ E)|reflexivity].
Qed.

Lemma quantize_cents_half_up neg coef exp q :
  quantize_cents (Dfinite neg coef exp) = Ok q ->
  exists c, q = Dfinite neg c (-2) /\ half_up_cents coef exp c.
Proof.
  unfold quantize_cents, half_up_cents.
  destruct (0 <=? exp + 2)%Z.
  - destruct (_ <? _)%N; [|discriminate]. intros [= <-]. eauto.
  - set (p := (10 ^ Z.to_N (- (exp + 2)))%N).
    assert (Hp : (p <> 0)%N) by (apply N.pow_nonzero; discriminate).
    pose proof (N.div_mod coef p Hp) as Hdm.
    pose proof (N.mod_lt coef p Hp) as Hlt.
    generalize dependent (coef mod p)%N. generalize dependent (coef / p)%N.
    intros d r Hdm Hlt.
    destruct (p <=? 2 * r)%N eqn:Hr;
      (destruct (_ <? _)%N; [|discriminate]); intros [= <-];
      eexists; (split; [reflexivity|]); subst coef.
    + apply N.leb_le in Hr. split; nia.
    + apply N.leb_gt in Hr. split; nia.
Qed.


(** C1, amended.  For a description with DELIVEROO whose amount [quantize]
    accepts, the key looked up is the date with the amount rounded to two
    decimals, a half going up.  With a candidate under that key the
    description becomes "Deliveroo: <name>" and the candidate leaves the
    table; without one the description is kept.  In both cases the account
    is "Despesas:Comida" unless a keyword rule matches the description
    that is returned, and then it is the account of the first such rule. *)
Theorem deliveroo_lookup_and_fallback :
  forall description date_obj amount orders q,
    contains "DELIVEROO" (upper description) = true ->
    quantize_cents (Decimal_of_float amount) = Ok q ->
    (forall neg coef exp, amount = Ffinite neg coef exp ->
       exists c, q = Dfinite neg c (-2) /\ half_up_cents coef exp c)
    /\ (forall name rest,
          dict_get orders (date_obj, q) = Some (name :: rest) ->
          get_account_and_description description date_obj amount orders
          = Ok ("Deliveroo: " ++ name,
                account_for "Despesas:Comida" ("Deliveroo: " ++ name),
                dict_store orders (date_obj, q) rest))
    /\ (candidates orders (date_obj, q) = [] ->
        get_account_and_description description date_obj amount orders
        = Ok (description, account_for "Despesas:Comida" description, orders))
    /\ (forall text,
          (exists i, first_match ACCOUNT_RULES (upper text) i
                       (account_for "Despesas:Comida" text))
          \/ (no_match ACCOUNT_RULES (upper text)
              /\ account_for "Despesas:Comida" text = "Despesas:Comida")).
Proof.
  intros description date_obj amount orders q D Hq.
  rewrite get_account_and_description_cases, D, Hq.
  split; [|split; [|split]].
  - intros neg coef exp ->. exact (quantize_cents_half_up _ _ _ _ Hq).
  - intros name rest ->. reflexivity.
  - unfold candidates.
    destruct (dict_get orders (date_obj, q)) as [[|name rest]|];
      [reflexivity|discriminate|reflexivity].
  - intros text. apply account_for_spec.
Qed.

End Categorisation.

(** C1 as stated fails: the candidate "GAIL's Bakery" is found, the
    description becomes "Deliveroo: GAIL's Bakery", and the keyword GAIL
    gives the account "Despesas:Supermercado", not "Despesas:Comida". *)
Lemma gail_order_is_not_comida :
  contains "DELIVEROO" (upper (PyLib := ascii_lib) "Deliveroo London") = true
  /\ quantize_cents (Decimal_of_float eight_fifty) = Ok (snd eight_fifty_key)
  /\ dict_get gail_orders eight_fifty_key = Some ["GAIL's Bakery"]
  /\ get_account_and_description (lib := ascii_lib)
       "Deliveroo London" july_13 eight_fifty gail_orders
     = Ok ("Deliveroo: GAIL's Bakery", "Despesas:Supermercado",
           [(eight_fifty_key, [])])
  /\ "Despesas:Supermercado" <> "Despesas:Comida".
Proof.
  repeat split; try (vm_compute; reflexivity). discriminate.
Qed.


Lemma deliveroo_lookup_and_fallback_witness :
  get_account_and_description (lib := ascii_lib)
    "Deliveroo London" july_13 eight_fifty gail_orders
  = Ok ("Deliveroo: GAIL's Bakery",
        account_for (lib := ascii_lib) "Despesas:Comida"
          "Deliveroo: GAIL's Bakery",
        dict_store gail_orders eight_fifty_key []).
Proof.
  assert (D : contains "DELIVEROO"
                (upper (PyLib := ascii_lib) "Deliveroo London") = true)
    by (vm_compute; reflexivity).
  assert (Q : quantize_cents (Decimal_of_float eight_fifty)
              = Ok (snd eight_fifty_key)) by (vm_compute; reflexivity).
  destruct (deliveroo_lookup_and_fallback (lib := ascii_lib)
              "Deliveroo London" july_13 eight_fifty gail_orders
              (snd eight_fifty_key) D Q) as (_ & H & _).
  apply (H "GAIL's Bakery" []). vm_compute; reflexivity.
Defined.


(** * The delivery-order table *)

Section Table.
Context {lib : PyLib}.

Lemma date_eqb_eq a b : date_eqb a b = true <-> a = b.
Proof.
  unfold date_eqb. rewrite !andb_true_iff, !Z.eqb_eq.
  destruct a, b; cbn. split.
  - intros [[-> ->] ->]. reflexivity.
  - intros [= -> -> ->]. auto.
Qed.

Lemma decimal_eqb_sym a b : decimal_eqb a b = true -> decimal_eqb b a = true.
Proof.
  destruct a, b; cbn; try discriminate.
  - rewrite !Qeq_bool_iff. apply Qeq_sym.
  - rewrite !eqb_true_iff. congruence.
Qed.

Lemma decimal_eqb_trans a b c :
  decimal_eqb a b = true -> decimal_eqb b c = true -> decimal_eqb a c = true.
Proof.
  destruct a, b, c; cbn; try discriminate.
  - rewrite !Qeq_bool_iff. apply Qeq_trans.
  - rewrite !eqb_true_iff. congruence.
Qed.

Lemma key_eqb_sym a b : key_eqb a b = true -> key_eqb b a = true.
Proof.
  unfold key_eqb. rewrite !andb_true_iff, !date_eqb_eq.
  intros [-> H]. split; [reflexivity|apply decimal_eqb_sym; exact H].
Qed.

Lemma key_eqb_trans a b c :
  key_eqb a b = true -> key_eqb b c = true -> key_eqb a c = true.
Proof.
  unfold key_eqb. rewrite !andb_true_iff, !date_eqb_eq.
  intros [-> H1] [-> H2]. split; [reflexivity|].
  exact (decimal_eqb_trans _ _ _ H1 H2).
Qed.

(** Equal keys are equal to the same keys. *)
Lemma key_eqb_right a b k :
  key_eqb a b = true -> key_eqb k a = key_eqb k b.
Proof.
  intros H. destruct (key_eqb k a) eqn:Ea, (key_eqb k b) eqn:Eb; auto.
  - rewrite (key_eqb_trans _ _ _ Ea H) in Eb. discriminate.
  - rewrite (key_eqb_trans _ _ _ Eb (key_eqb_sym _ _ H)) in Ea. discriminate.
Qed.

Lemma key_eqb_left a b k :
  key_eqb a b = true -> key_eqb a k = key_eqb b k.
Proof.
  intros H. destruct (key_eqb a k) eqn:Ea, (key_eqb b k) eqn:Eb; auto.
  - rewrite (key_eqb_trans _ _ _ (key_eqb_sym _ _ H) Ea) in Eb. discriminate.
  - rewrite (key_eqb_trans _ _ _ H Eb) in Ea. discriminate.
Qed.

Lemma dict_get_equiv d a b :
  key_eqb a b = true -> dict_get d a = dict_get d b.
Proof.
  intros H. induction d as [|[k v] d IH]; cbn; [reflexivity|].
  rewrite (key_eqb_right _ _ k H), IH. reflexivity.
Qed.

Lemma dict_get_store d k v k2 :
  dict_get (dict_store d k v) k2 =
  if key_eqb k k2
  then match dict_get d k with Some _ => Some v | None => None end
  else dict_get d k2.
Proof.
  induction d as [|[k' v'] d IH]; cbn.
  - destruct (key_eqb k k2); reflexivity.
  - destruct (key_eqb k' k) eqn:E1; cbn.
    + rewrite (key_eqb_left _ _ k2 E1).
      destruct (key_eqb k k2); reflexivity.
    + rewrite IH. destruct (key_eqb k' k2) eqn:E2; [|reflexivity].
      destruct (key_eqb k k2) eqn:E3; [|reflexivity].
      rewrite (key_eqb_trans _ _ _ E2 (key_eqb_sym _ _ E3)) in E1.
      discriminate.
Qed.

Lemma dict_get_app d d' k :
  dict_get (d ++ d')%list k =
  match dict_get d k with Some v => Some v | None => dict_get d' k end.
Proof.
  induction d as [|[k' v'] d IH]; cbn; [reflexivity|].
  destruct (key_eqb k' k); [reflexivity|exact IH].
Qed.

Lemma candidates_equiv d a b :
  key_eqb a b = true -> candidates d a = candidates d b.
Proof.
  intros H. unfold candidates. rewrite (dict_get_equiv d a b H). reflexivity.
Qed.

Lemma candidates_append d k name k2 :
  candidates (dict_append d k name) k2 =
  (candidates d k2 ++ (if key_eqb k k2 then [name] else []))%list.
Proof.
  unfold dict_append.
  destruct (dict_get d k) as [v|] eqn:G.
  - unfold candidates at 1. rewrite dict_get_store, G.
    destruct (key_eqb k k2) eqn:E.
    + rewrite <- (candidates_equiv d k k2 E). unfold candidates.
      rewrite G. reflexivity.
    + rewrite app_nil_r. reflexivity.
  - unfold candidates. rewrite dict_get_app. cbn [dict_get].
    destruct (key_eqb k k2) eqn:E.
    + rewrite <- (dict_get_equiv d k k2 E), G. reflexivity.
    + destruct (dict_get d k2); [rewrite app_nil_r|]; reflexivity.
Qed.

(** The table lists, under each key, the restaurants of the order items
    with that key, in file order. *)
Lemma parse_orders_candidates items :
  forall d ms d', parse_orders items d = (ms, Ok d') ->
  forall k, candidates d' k = (candidates d k ++ order_names items k)%list.
Proof.
  induction items as [|item items IH]; intros d ms d'; cbn.
  - intros [= _ <-] k. rewrite app_nil_r. reflexivity.
  - destruct (parse_order item) as [[k' name]|e].
    + intros H k. rewrite (IH _ _ _ H k), candidates_append, <- app_assoc.
      destruct (key_eqb k' k); reflexivity.
    + destruct e; try discriminate;
        destruct (parse_orders items d) as [ms' r] eqn:E;
        intros [= _ ->]; exact (IH _ _ _ E).
Qed.

Lemma nth_error_tl {A : Type} (l : list A) n :
  nth_error (tl l) n = nth_error l (S n).
Proof. destruct l; [destruct n|]; reflexivity. Qed.

Lemma skipn_tl {A : Type} (l : list A) n :
  skipn n (tl l) = skipn (S n) l.
Proof. destruct l; [destruct n|]; reflexivity. Qed.

(** One call: the description it returns and the table it leaves. *)
Lemma get_account_and_description_step description date_obj amount d :
  quantizes (description, date_obj, amount) ->
  exists account d',
    get_account_and_description description date_obj amount d
    = Ok (match lookup_key_of (description, date_obj, amount) with
          | Some k =>
              match candidates d k with
              | name :: _ => "Deliveroo: " ++ name
              | [] => description
              end
          | None => description
          end, account, d')
    /\ forall k2,
         candidates d' k2 =
         if looks_up k2 (description, date_obj, amount)
         then tl (candidates d k2) else candidates d k2.
Proof.
  intros Hq. rewrite get_account_and_description_cases.
  unfold looks_up, lookup_key_of, quantizes in *.
  destruct (contains "DELIVEROO" (upper description)).
  - destruct (Hq eq_refl) as [q ->].
    unfold candidates at 1.
    destruct (dict_get d (date_obj, q)) as [[|name rest]|] eqn:G.
    + do 2 eexists. split; [reflexivity|]. intros k2.
      destruct (key_eqb (date_obj, q) k2) eqn:E; [|reflexivity].
      rewrite <- (candidates_equiv d _ _ E). unfold candidates.
      rewrite G. reflexivity.
    + do 2 eexists. split; [reflexivity|]. intros k2.
      unfold candidates at 1. rewrite dict_get_store, G.
      destruct (key_eqb (date_obj, q) k2) eqn:E; [|reflexivity].
      rewrite <- (candidates_equiv d _ _ E). unfold candidates.
      rewrite G. reflexivity.
    + do 2 eexists. split; [reflexivity|]. intros k2.
      destruct (key_eqb (date_obj, q) k2) eqn:E; [|reflexivity].
      rewrite <- (candidates_equiv d _ _ E). unfold candidates.
      rewrite G. reflexivity.
  - do 2 eexists. split; [reflexivity|]. reflexivity.
Qed.

Lemma hits_before_cons k c calls i :
  hits_before k (c :: calls) (S i) =
  (if looks_up k c then S (hits_before k calls i) else hits_before k calls i).
Proof.
  unfold hits_before. cbn. destruct (looks_up k c); reflexivity.
Qed.

Lemma hits_before_length k calls :
  hits_before k calls (List.length calls)
  = List.length (filter (looks_up k) calls).
Proof. unfold hits_before. rewrite firstn_all. reflexivity. Qed.

(** Successive calls: the [i]-th call is given the candidate whose rank is
    the number of earlier calls with its key. *)
Lemma categorize_all_ranks calls :
  forall d, Forall quantizes calls ->
  exists outs final,
    categorize_all calls d = Ok (outs, final)
    /\ (forall k, candidates final k
                  = skipn (hits_before k calls (List.length calls))
                      (candidates d k))
    /\ forall i description date_obj amount,
         nth_error calls i = Some (description, date_obj, amount) ->
         exists account,
           nth_error outs i
           = Some (match lookup_key_of (description, date_obj, amount) with
                   | Some k =>
                       match nth_error (candidates d k)
                               (hits_before k calls i) with
                       | Some name => "Deliveroo: " ++ name
                       | None => description
                       end
                   | None => description
                   end, account).
Proof.
  induction calls as [|[[description date_obj] amount] calls IH];
    intros d Hall.
  - exists [], d. split; [reflexivity|]. split.
    + intros k. reflexivity.
    + intros [|i]; discriminate.
  - inversion Hall as [|? ? Hq Hrest]; subst.
    destruct (get_account_and_description_step description date_obj amount d Hq)
      as (account & d' & Hstep & Hcand).
    destruct (IH d' Hrest) as (outs & final & Hrun & Hfinal & Hnth).
    do 2 eexists. split; [|split].
    + cbn [categorize_all]. rewrite Hstep. cbn [bind]. rewrite Hrun.
      reflexivity.
    + intros k. rewrite Hfinal, Hcand. cbn [List.length].
      rewrite hits_before_cons.
      destruct (looks_up k (description, date_obj, amount));
        [apply skipn_tl|reflexivity].
    + intros [|i] description' date_obj' amount' Hi.
      * injection Hi as <- <- <-. exists account. cbn [nth_error].
        destruct (lookup_key_of (description, date_obj, amount)) as [k|];
          [|reflexivity].
        unfold hits_before. cbn.
        destruct (candidates d k); reflexivity.
      * cbn [nth_error] in Hi |- *.
        destruct (Hnth i _ _ _ Hi) as [account' Hout].
        exists account'. rewrite Hout.
        destruct (lookup_key_of (description', date_obj', amount')) as [k|];
          [|reflexivity].
        rewrite Hcand, hits_before_cons.
        destruct (looks_up k (description, date_obj, amount));
          [rewrite nth_error_tl|]; reflexivity.
Qed.

Lemma hits_before_increases k calls :
  forall i j c, (i < j)%nat -> nth_error calls i = Some c ->
  looks_up k c = true ->
  (hits_before k calls i < hits_before k calls j)%nat.
Proof.
  induction calls as [|c0 calls IH]; intros i j c Hij Hi Hc.
  - destruct i; discriminate.
  - destruct j as [|j]; [lia|]. rewrite hits_before_cons.
    destruct i as [|i].
    + injection Hi as ->. rewrite Hc. unfold hits_before. cbn. lia.
    + rewrite hits_before_cons. cbn in Hi.
      assert (hits_before k calls i < hits_before k calls j)%nat
        by (apply (IH i j c); [lia|exact Hi|exact Hc]).
      destruct (looks_up k c0); lia.
Qed.

(** C2.  Every candidate is consumed by one transaction at most, in
    insertion order: the table built from the order items lists under each
    key their restaurants in file order; of the calls made one after the
    other on that table, the one that looks up a key after [n] earlier
    calls with that key is given the candidate of rank [n] (and keeps its
    description when there are [n] candidates or fewer); two calls with
    the same key have different ranks; and the table is left with the
    candidates that were not given. *)
Theorem candidates_consumed_once_in_order :
  forall items ms orders calls,
    parse_orders items [] = (ms, Ok orders) ->
    Forall quantizes calls ->
    exists outs final,
      categorize_all calls orders = Ok (outs, final)
      /\ (forall k, candidates orders k = order_names items k)
      /\ (forall i description date_obj amount k,
            nth_error calls i = Some (description, date_obj, amount) ->
            lookup_key_of (description, date_obj, amount) = Some k ->
            exists account,
              nth_error outs i
              = Some (match nth_error (order_names items k)
                              (hits_before k calls i) with
                      | Some name => "Deliveroo: " ++ name
                      | None => description
                      end, account))
      /\ (forall i j c k,
            (i < j)%nat -> nth_error calls i = Some c ->
            looks_up k c = true ->
            (hits_before k calls i < hits_before k calls j)%nat)
      /\ (forall k, candidates final k
                    = skipn (hits_before k calls (List.length calls))
                        (order_names items k)).
Proof.
  intros items ms orders calls Hparse Hall.
  assert (Hnames : forall k, candidates orders k = order_names items k).
  { intros k. rewrite (parse_orders_candidates _ _ _ _ Hparse k).
    reflexivity. }
  destruct (categorize_all_ranks calls orders Hall)
    as (outs & final & Hrun & Hfinal & Hnth).
  exists outs, final. split; [exact Hrun|]. split; [exact Hnames|].
  split; [|split].
  - intros i description date_obj amount k Hi Hk.
    destruct (Hnth i _ _ _ Hi) as [account Hout].
    exists account. rewrite Hout, Hk, Hnames. reflexivity.
  - intros i j c k. apply hits_before_increases.
  - intros k. rewrite Hfinal, Hnames. reflexivity.
Qed.

End Table.

(** * The loop over the statement rows *)

Section Statement.
Context {lib : PyLib}.

Lemma quantize_cents_raises d e :
  quantize_cents d = Raise e -> e = InvalidOperation.
Proof.
  unfold quantize_cents.
  destruct d as [neg coef exp|neg|[|]]; try congruence.
  destruct (_ <? _)%N; congruence.
Qed.

Lemma get_account_and_description_raises description date_obj amount d e :
  get_account_and_description description date_obj amount d = Raise e ->
  e = InvalidOperation
  /\ ~ quantizes (description, date_obj, amount).
Proof.
  rewrite get_account_and_description_cases. unfold quantizes.
  destruct (contains "DELIVEROO" (upper description)); [|discriminate].
  destruct (quantize_cents (Decimal_of_float amount)) as [q|e'] eqn:Q.
  - destruct (dict_get d (date_obj, q)) as [[|name rest]|]; discriminate.
  - intros [= ->]. split; [exact (quantize_cents_raises _ _ Q)|].
    intros H. destruct (H eq_refl) as [q Hq]. discriminate.
Qed.

(** With five cells, reading a row raises nothing but [AttributeError] and
    [ValueError]. *)
Lemma row_fields_raises year trx c0 c1 c2 c3 c4 more e :
  row_fields year trx (c0 :: c1 :: c2 :: c3 :: c4 :: more) = Raise e ->
  e = AttributeError \/ e = ValueError.
Proof.
  unfold row_fields, column. cbn [nth_error or_raise bind].
  destruct (td_div c0) as [s|]; cbn; [|intros [= <-]; auto].
  destruct (strptime_dbY _); cbn; [|intros [= <-]; auto].
  destruct (td_a c2); cbn; [|intros [= <-]; auto].
  destruct (td_p c4); cbn; [|intros [= <-]; auto].
  destruct (float_of_string _); cbn; [discriminate|intros [= <-]; auto].
Qed.

Lemma five_columns (trx : tr) :
  (List.length (tr_columns trx) <? 5)%nat = false ->
  exists c0 c1 c2 c3 c4 more,
    tr_columns trx = c0 :: c1 :: c2 :: c3 :: c4 :: more.
Proof.
  intros H. apply Nat.ltb_ge in H.
  destruct (tr_columns trx) as [|c0 [|c1 [|c2 [|c3 [|c4 more]]]]];
    cbn in H; try lia.
  repeat eexists.
Qed.

(** A row that is short, pending or not read in full is skipped: the
    table and the rows written stay as they are. *)
Lemma process_transaction_skip year st trx :
  well_formed year trx = false ->
  exists st', process_transaction year st trx = Ok st' /\ same_data st' st.
Proof.
  unfold well_formed, process_transaction. intros Hwf.
  destruct (List.length (tr_columns trx) <? 5)%nat eqn:L.
  - exists st. split; [reflexivity|split; reflexivity].
  - destruct (five_columns trx L) as (c0 & c1 & c2 & c3 & c4 & more & Hc).
    rewrite Hc in *. cbn [List.length nth_error] in Hwf.
    cbn [Nat.leb andb] in Hwf.
    unfold row_body, column. cbn [nth_error or_raise bind].
    destruct (is_pending c1); cbn [negb andb] in Hwf.
    + unfold pending_message, column. cbn [nth_error or_raise bind].
      destruct (td_a c2); cbn; eexists; (split; [reflexivity|]);
        split; reflexivity.
    + destruct (row_fields year trx _) as [f|e] eqn:R; [discriminate|].
      cbn [bind].
      destruct (row_fields_raises _ _ _ _ _ _ _ _ _ R) as [-> | ->];
        eexists; (split; [reflexivity|]); split; reflexivity.
Qed.

(** A row read in full is handed to [get_account_and_description]; its CSV
    row is written, unless [quantize] raises. *)
Lemma process_transaction_well_formed year st trx :
  well_formed year trx = true ->
  exists f,
    row_fields year trx (tr_columns trx) = Ok f
    /\ match get_account_and_description (f_description f) (f_date f)
               (float_abs (f_amount f)) (st_orders st) with
       | Ok (d, a, o) =>
           process_transaction year st trx
           = Ok (mkstate o (st_rows st ++ [csv_row f d a])%list (st_log st))
       | Raise e => process_transaction year st trx = Raise e
       end.
Proof.
  unfold well_formed, process_transaction.
  rewrite !andb_true_iff, Nat.leb_le. intros [[L P] R].
  destruct (List.length (tr_columns trx) <? 5)%nat eqn:L';
    [apply Nat.ltb_lt in L'; lia|].
  unfold row_body, column.
  destruct (nth_error (tr_columns trx) 1) as [c1|]; [|discriminate].
  cbn [or_raise bind]. apply negb_true_iff in P. rewrite P.
  destruct (row_fields year trx (tr_columns trx)) as [f|]; [|discriminate].
  exists f. split; [reflexivity|]. cbn [bind].
  destruct (get_account_and_description _ _ _ _) as [[[d a] o]|e] eqn:G;
    cbn [bind]; [reflexivity|].
  destruct (get_account_and_description_raises _ _ _ _ _ G) as [-> _].
  reflexivity.
Qed.

(** The messages already printed do not change what a row does. *)
Lemma process_transaction_same_data year trx s1 s2 :
  same_data s1 s2 ->
  match process_transaction year s1 trx, process_transaction year s2 trx with
  | Ok a, Ok b => same_data a b
  | Raise e1, Raise e2 => e1 = e2
  | _, _ => False
  end.
Proof.
  destruct s1 as [o1 r1 l1], s2 as [o2 r2 l2]. unfold same_data.
  cbn [st_orders st_rows].
  intros [-> ->]. unfold process_transaction. cbn [st_orders st_rows st_log].
  destruct (List.length (tr_columns trx) <? 5)%nat; [split; reflexivity|].
  destruct (row_body year trx (tr_columns trx) o2) as [[m|r o]|e];
    [| |destruct e]; try reflexivity; split; reflexivity.
Qed.

Lemma process_transactions_same_data year trxs :
  forall s1 s2, same_data s1 s2 ->
  same_data (fst (process_transactions year trxs s1))
            (fst (process_transactions year trxs s2))
  /\ snd (process_transactions year trxs s1)
     = snd (process_transactions year trxs s2).
Proof.
  induction trxs as [|trx trxs IH]; intros s1 s2 H; cbn.
  - split; [exact H|reflexivity].
  - pose proof (process_transaction_same_data year trx s1 s2 H) as Hs.
    destruct (process_transaction year s1 trx) as [a|e1],
             (process_transaction year s2 trx) as [b|e2]; try contradiction.
    + exact (IH a b Hs).
    + cbn. split; [exact H|congruence].
Qed.

(** Leaving out a row that is skipped changes neither the rows written
    nor the table nor the way the loop ends. *)
Lemma process_transactions_without year trx before :
  well_formed year trx = false ->
  forall after st,
    same_data (fst (process_transactions year (before ++ trx :: after)%list st))
              (fst (process_transactions year (before ++ after)%list st))
    /\ snd (process_transactions year (before ++ trx :: after)%list st)
       = snd (process_transactions year (before ++ after)%list st).
Proof.
  intros Hwf after. induction before as [|b before IH]; intros st; cbn.
  - destruct (process_transaction_skip year st trx Hwf) as (st' & -> & Hs).
    exact (process_transactions_same_data year after st' st Hs).
  - destruct (process_transaction year st b) as [st'|e]; [apply IH|].
    cbn. split; [split|]; reflexivity.
Qed.

(** The loop, with an invariant [I] of the table and a relation [R]
    between a row written and the statement row it comes from.  The rows
    written come from the rows read in full, in the order of the loop: all
    of them when the loop ends without exception, which it does when
    [quantize] accepts every amount. *)
Lemma process_transactions_invariant year
      (I : dict -> Prop) (R : record -> tr -> Prop) :
  (forall trx f o d a o',
      row_fields year trx (tr_columns trx) = Ok f -> I o ->
      get_account_and_description (f_description f) (f_date f)
        (float_abs (f_amount f)) o = Ok (d, a, o') ->
      I o' /\ R (csv_row f d a) trx) ->
  forall trxs st, I (st_orders st) ->
  exists new sources later,
    st_rows (fst (process_transactions year trxs st))
    = (st_rows st ++ new)%list
    /\ I (st_orders (fst (process_transactions year trxs st)))
    /\ Forall2 R new sources
    /\ filter (well_formed year) trxs = (sources ++ later)%list
    /\ (snd (process_transactions year trxs st) = None -> later = [])
    /\ (Forall (row_quantizes year) trxs ->
        snd (process_transactions year trxs st) = None).
Proof.
  intros Hcall. induction trxs as [|trx trxs IH]; intros st HI.
  - exists [], [], []. cbn. rewrite app_nil_r. repeat split; auto.
  - cbn [process_transactions filter].
    destruct (well_formed year trx) eqn:Hwf.
    + destruct (process_transaction_well_formed year st trx Hwf)
        as (f & Hf & Hstep).
      destruct (get_account_and_description _ _ _ _) as [[[d a] o]|e] eqn:G.
      * rewrite Hstep.
        destruct (Hcall trx f _ d a o Hf HI G) as [HI' HR].
        destruct (IH (mkstate o (st_rows st ++ [csv_row f d a])%list
                        (st_log st)) HI')
          as (new & sources & later & Hrows & Hinv & Hfrom & Hfilter
              & Hend & Hq).
        exists (csv_row f d a :: new), (trx :: sources), later.
        split; [|split; [|split; [|split; [|split]]]].
        -- rewrite Hrows. cbn. rewrite <- app_assoc. reflexivity.
        -- exact Hinv.
        -- constructor; [exact HR|exact Hfrom].
        -- cbn. rewrite Hfilter. reflexivity.
        -- exact Hend.
        -- intros Hall. inversion Hall; subst. auto.
      * rewrite Hstep. cbn.
        exists [], [], (trx :: filter (well_formed year) trxs).
        rewrite app_nil_r. repeat split; try constructor; try discriminate;
          auto.
        intros Hall. inversion Hall as [|? ? Hrow _]; subst.
        destruct (get_account_and_description_raises _ _ _ _ _ G) as [_ Hn].
        exfalso. exact (Hn (Hrow f Hf)).
    + destruct (process_transaction_skip year st trx Hwf)
        as (st' & -> & Ho & Hr).
      rewrite <- Ho in HI.
      destruct (IH st' HI)
        as (new & sources & later & Hrows & Hinv & Hfrom & Hfilter
            & Hend & Hq).
      exists new, sources, later. rewrite Hrows, Hr.
      repeat split; auto.
      intros Hall. inversion Hall; subst. auto.
Qed.

Lemma process_transactions_rows year trxs :
  forall st,
  exists new sources later,
    st_rows (fst (process_transactions year trxs st))
    = (st_rows st ++ new)%list
    /\ Forall2 (written_from year) new sources
    /\ filter (well_formed year) trxs = (sources ++ later)%list
    /\ (snd (process_transactions year trxs st) = None -> later = [])
    /\ (Forall (row_quantizes year) trxs ->
        snd (process_transactions year trxs st) = None).
Proof.
  intros st.
  destruct (process_transactions_invariant year (fun _ => True)
              (written_from year)) with (trxs := trxs) (st := st)
    as (new & sources & later & H1 & _ & H2); [|exact I|].
  - intros trx f o d a o' Hf _ _. split; [exact I|].
    exists f, d, a. auto.
  - exists new, sources, later. auto.
Qed.



Lemma short_not_well_formed year trx :
  short trx -> well_formed year trx = false.
Proof.
  unfold short, well_formed. intros H.
  apply Nat.leb_gt in H. rewrite H. reflexivity.
Qed.

Lemma pending_not_well_formed year trx :
  pending trx -> well_formed year trx = false.
Proof.
  unfold pending, well_formed. intros (c1 & -> & ->).
  cbn. rewrite andb_false_r. reflexivity.
Qed.

Lemma malformed_row_fields year trx :
  malformed year trx ->
  exists e, (e = AttributeError \/ e = ValueError)
            /\ row_fields year trx (tr_columns trx) = Raise e.
Proof.
  intros (c0 & c1 & c2 & c3 & c4 & more & Hc & _ & H). rewrite Hc.
  unfold row_fields, column. cbn [nth_error or_raise bind].
  destruct (td_div c0) as [s|] eqn:D; cbn [attr bind]; [|eauto].
  destruct (strptime_dbY (strip s ++ " " ++ year)) eqn:T;
    cbn [or_raise bind]; [|eauto].
  destruct (td_a c2) eqn:A; cbn [attr bind]; [|eauto].
  destruct (td_p c4) as [p|] eqn:P; cbn [attr bind]; [|eauto].
  destruct (float_of_string _) eqn:F; cbn [or_raise bind]; [|eauto].
  exfalso.
  destruct H as [H | [(s' & [= <-] & H) | [H | [H | (p' & [= <-] & H)]]]];
    congruence.
Qed.

Lemma malformed_not_well_formed year trx :
  malformed year trx -> well_formed year trx = false.
Proof.
  intros H. destruct (malformed_row_fields year trx H) as (e & _ & He).
  unfold well_formed. rewrite He. apply andb_false_r.
Qed.

Lemma process_transaction_malformed year st trx :
  malformed year trx ->
  exists e, (e = AttributeError \/ e = ValueError)
            /\ process_transaction year st trx = Ok (log st (MsgSkipRow e)).
Proof.
  intros H. destruct (malformed_row_fields year trx H) as (e & He & Hr).
  destruct H as (c0 & c1 & c2 & c3 & c4 & more & Hc & Hp & _).
  exists e. split; [exact He|].
  unfold process_transaction, row_body, column. rewrite Hr, Hc.
  cbn [List.length Nat.ltb Nat.leb nth_error or_raise bind].
  rewrite Hp. cbn [bind]. destruct He as [-> | ->]; reflexivity.
Qed.

Lemma process_transactions_without_rev year trx before after st :
  well_formed year trx = false ->
  let with_row :=
    process_transactions year (rev (before ++ trx :: after)) st in
  let without := process_transactions year (rev (before ++ after)) st in
  st_rows (fst with_row) = st_rows (fst without)
  /\ st_orders (fst with_row) = st_orders (fst without)
  /\ snd with_row = snd without.
Proof.
  intros Hwf with_row without. subst with_row without.
  rewrite !rev_app_distr. cbn [rev]. rewrite <- app_assoc. cbn [app].
  destruct (process_transactions_without year trx (rev after) Hwf
              (rev before) st) as [[Ho Hr] He].
  auto.
Qed.

(** C4, amended.  A row with fewer than five cells is skipped without a
    message.  A row with five cells or more, not pending, whose date,
    description or amount cannot be read is skipped with the message of a
    parsing error.  In both cases no CSV row is written and the table is
    left as it is, and the rows written for the other rows, the table and
    the way the loop ends are those of the statement without that row. *)
Theorem unreadable_rows_are_skipped :
  forall year trx,
    (short trx -> forall st, process_transaction year st trx = Ok st)
    /\ (malformed year trx ->
        forall st, exists e,
          (e = AttributeError \/ e = ValueError)
          /\ process_transaction year st trx = Ok (log st (MsgSkipRow e)))
    /\ (short trx \/ malformed year trx ->
        forall before after st,
          let with_row :=
            process_transactions year (rev (before ++ trx :: after)) st in
          let without :=
            process_transactions year (rev (before ++ after)) st in
          st_rows (fst with_row) = st_rows (fst without)
          /\ st_orders (fst with_row) = st_orders (fst without)
          /\ snd with_row = snd without).
Proof.
  intros year trx. split; [|split].
  - intros H st. unfold process_transaction.
    apply Nat.ltb_lt in H. rewrite H. reflexivity.
  - intros H st. exact (process_transaction_malformed year st trx H).
  - intros H before after st.
    apply process_transactions_without_rev.
    destruct H as [H | H];
      [exact (short_not_well_formed _ _ H)
      |exact (malformed_not_well_formed _ _ H)].
Qed.

(** C9.  A row whose second cell says pending is skipped: the rows written
    and the table stay as they are, at most a message is printed, and the
    rows written for the other rows, the table and the way the loop ends
    are those of the statement without that row. *)
Theorem pending_rows_are_skipped :
  forall year trx,
    pending trx ->
    (forall st, exists st',
        process_transaction year st trx = Ok st'
        /\ st_rows st' = st_rows st /\ st_orders st' = st_orders st
        /\ (st' = st
            \/ exists m, st' = log st m
                         /\ (m = MsgSkipPendingNoDescription
                             \/ exists d, m = MsgSkipPending d)))
    /\ (forall before after st,
          let with_row :=
            process_transactions year (rev (before ++ trx :: after)) st in
          let without :=
            process_transactions year (rev (before ++ after)) st in
          st_rows (fst with_row) = st_rows (fst without)
          /\ st_orders (fst with_row) = st_orders (fst without)
          /\ snd with_row = snd without).
Proof.
  intros year trx H. split.
  - intros st. destruct H as (c1 & Hc1 & Hp).
    unfold process_transaction.
    destruct (List.length (tr_columns trx) <? 5)%nat eqn:L.
    + exists st. auto.
    + destruct (five_columns trx L) as (c0 & c1' & c2 & c3 & c4 & more & Hc).
      rewrite Hc in *. cbn in Hc1. injection Hc1 as ->.
      unfold row_body, column. cbn [nth_error or_raise bind]. rewrite Hp.
      unfold pending_message, column. cbn [nth_error or_raise bind].
      destruct (td_a c2); cbn; eexists;
        (split; [reflexivity|]); (split; [reflexivity|]);
        (split; [reflexivity|]); right; eexists; (split; [reflexivity|]);
        eauto.
  - intros before after st. apply process_transactions_without_rev.
    exact (pending_not_well_formed _ _ H).
Qed.

(** The loop makes the calls of [calls_of] one after the other on its
    table, and writes a row for each with what the call returns. *)
Lemma process_transactions_calls year trxs :
  forall st outs final,
    categorize_all (calls_of year trxs) (st_orders st) = Ok (outs, final) ->
    snd (process_transactions year trxs st) = None
    /\ st_orders (fst (process_transactions year trxs st)) = final
    /\ exists new,
         st_rows (fst (process_transactions year trxs st))
         = (st_rows st ++ new)%list
         /\ Forall2 (fun r out => exists f, r = csv_row f (fst out) (snd out))
              new outs.
Proof.
  induction trxs as [|trx trxs IH]; intros st outs final.
  - cbn [calls_of flat_map categorize_all process_transactions fst snd].
    intros [= <- <-]. split; [reflexivity|]. split; [reflexivity|].
    exists []. rewrite app_nil_r. split; constructor.
  - unfold calls_of. cbn [flat_map process_transactions].
    fold (calls_of year trxs).
    destruct (well_formed year trx) eqn:Hwf.
    + destruct (process_transaction_well_formed year st trx Hwf)
        as (f & Hf & Hstep).
      rewrite Hf. cbn [app categorize_all].
      destruct (get_account_and_description _ _ _ _) as [[[d a] o]|e];
        cbn [bind]; [|discriminate].
      destruct (categorize_all (calls_of year trxs) o)
        as [[outs' final']|e] eqn:Hrest; cbn [bind]; [|discriminate].
      intros [= <- <-]. rewrite Hstep.
      destruct (IH (mkstate o (st_rows st ++ [csv_row f d a])%list
                      (st_log st)) outs' final' Hrest)
        as (Hend & Hfinal & new & Hrows & Hall).
      split; [exact Hend|]. split; [exact Hfinal|].
      exists (csv_row f d a :: new). split.
      * rewrite Hrows. cbn [st_rows]. rewrite <- app_assoc. reflexivity.
      * constructor; [exists f; reflexivity|exact Hall].
    + cbn [app]. intros Hrun.
      destruct (process_transaction_skip year st trx Hwf)
        as (st' & -> & Ho & Hr).
      rewrite <- Ho in Hrun.
      destruct (IH st' outs final Hrun) as (Hend & Hfinal & new & Hrows & Hall).
      split; [exact Hend|]. split; [exact Hfinal|].
      exists new. rewrite Hrows, Hr. split; [reflexivity|exact Hall].
Qed.

End Statement.

(** * The program *)

Section Program.
Context {lib : PyLib}.

Lemma find_year_nonempty comments y :
  find_year comments = Some y -> y <> EmptyString.
Proof.
  induction comments as [|c comments IH]; cbn; [discriminate|].
  destruct (contains "saved from url" c); [|exact IH].
  destruct (re_search_end_year c) as [y'|] eqn:E; [|exact IH].
  intros [= <-]. exact (re_search_end_year_nonempty _ _ E).
Qed.

Lemma str_of_N_nonempty n : is_empty (str_of_N n) = false.
Proof.
  unfold str_of_N, NilZero.string_of_uint.
  destruct (N.to_uint n); reflexivity.
Qed.

(** The test [if not year] never fires. *)
Lemma statement_year_nonempty w soup :
  is_empty (statement_year w soup) = false.
Proof.
  unfold statement_year, parse_year_from_comment.
  destruct (find_year (amex_comments soup)) as [y|] eqn:E; cbn [snd].
  - pose proof (find_year_nonempty _ _ E) as Hy.
    destruct y; [contradiction|reflexivity].
  - apply str_of_N_nonempty.
Qed.

Lemma last_error_app {A : Type} (l : list A) (x : A) :
  last_error (l ++ [x])%list = Some x.
Proof.
  induction l as [|a l IH]; [reflexivity|].
  cbn [app last_error]. destruct (l ++ [x])%list eqn:E; [|exact IH].
  destruct l; discriminate.
Qed.

(** The run on a statement that opens and has rows, with an order history
    that raises nothing. *)
Lemma process_html_file_run w amex_path deliveroo_path output_path
      soup t ts m2 orders :
  open_amex w amex_path = Opened soup ->
  amex_table_body soup = Some (t :: ts) ->
  parse_deliveroo_orders deliveroo_path (open_deliveroo w deliveroo_path)
  = (m2, Ok orders) ->
  let run :=
    process_transactions (statement_year w soup) (rev (t :: ts))
      (mkstate orders [] []) in
  let out := process_html_file w amex_path deliveroo_path output_path in
  out_csv out = Some (output_path, HEADER :: st_rows (fst run))
  /\ out_end out = match snd run with
                  | None => Returned
                  | Some e => Unhandled e
                  end
  /\ exists before after, out_messages out = (before ++ m2 ++ after)%list.
Proof.
  intros Hopen Htable Hparse run out. subst run out.
  pose proof (statement_year_nonempty w soup) as Hyear.
  unfold process_html_file, statement_year in *. rewrite Hopen.
  destruct (parse_year_from_comment soup (now_year w)) as [m1 year].
  cbn [snd] in *. rewrite Hyear, Hparse, Htable.
  destruct (process_transactions year (rev (t :: ts)) (mkstate orders [] []))
    as [st [e|]]; cbn [fst snd out_csv out_end out_messages];
    (split; [reflexivity|split; [reflexivity|]]);
    exists m1; eexists; reflexivity.
Qed.

(** A CSV file is written only on such a run. *)
Lemma process_html_file_csv_inv w amex_path deliveroo_path output_path
      path records :
  out_csv (process_html_file w amex_path deliveroo_path output_path)
  = Some (path, records) ->
  exists soup t ts m2 orders,
    open_amex w amex_path = Opened soup
    /\ amex_table_body soup = Some (t :: ts)
    /\ parse_deliveroo_orders deliveroo_path (open_deliveroo w deliveroo_path)
       = (m2, Ok orders).
Proof.
  unfold process_html_file.
  destruct (open_amex w amex_path) as [| |soup]; try discriminate.
  destruct (parse_year_from_comment soup (now_year w)) as [m1 year].
  destruct (is_empty year); [discriminate|].
  destruct (parse_deliveroo_orders _ _) as [m2 [orders|e]]; [|discriminate].
  destruct (amex_table_body soup) as [[|t ts]|] eqn:Htable;
    try discriminate.
  intros _. exists soup, t, ts, m2, orders. auto.
Qed.

Lemma csv_row_shape f description account :
  List.length (csv_row f description account) = 6%nat
  /\ nth_error (csv_row f description account) 5
     = Some (Text CREDIT_CARD_ACCOUNT).
Proof.
  unfold csv_row. destruct (float_lt0 (f_amount f)); split; reflexivity.
Qed.

Lemma written_from_shape year r trx :
  written_from year r trx ->
  List.length r = 6%nat /\ nth_error r 5 = Some (Text CREDIT_CARD_ACCOUNT).
Proof.
  intros (f & d & a & _ & ->). apply csv_row_shape.
Qed.

Lemma Forall2_Forall_left {A B : Type} (R : A -> B -> Prop) (P : A -> Prop)
      l l' :
  Forall2 R l l' -> (forall a b, In b l' -> R a b -> P a) -> Forall P l.
Proof.
  induction 1 as [|a b l l' Hab _ IH]; intros H; constructor.
  - apply (H a b); [left; reflexivity|exact Hab].
  - apply IH. intros a' b' Hin. apply H. right; exact Hin.
Qed.

(** C6.  When the statement cannot be opened, or has no transaction table,
    the program ends with exit status 1 and writes no CSV file; the last
    thing it prints is an error message.  It leaves through [sys.exit(1)],
    except when the order history raised an exception first. *)
Theorem missing_statement_aborts :
  forall w amex_path deliveroo_path output_path,
    (open_amex w amex_path = FileNotFound
     \/ open_amex w amex_path = ReadError
     \/ exists soup, open_amex w amex_path = Opened soup
                     /\ amex_table_body soup = None) ->
    let out := process_html_file w amex_path deliveroo_path output_path in
    exit_status (out_end out) = 1%Z
    /\ out_csv out = None
    /\ (exists m, last_error (out_messages out) = Some m /\ is_error m = true)
    /\ (out_end out = SysExit 1
        \/ exists e,
             out_end out = Unhandled e
             /\ snd (parse_deliveroo_orders deliveroo_path
                       (open_deliveroo w deliveroo_path)) = Raise e).
Proof.
  intros w amex_path deliveroo_path output_path H out. subst out.
  unfold process_html_file.
  destruct H as [-> | [-> | (soup & -> & Htable)]].
  - cbn. repeat split; eauto.
  - cbn. repeat split; eauto.
  - pose proof (statement_year_nonempty w soup) as Hyear.
    unfold statement_year in Hyear.
    destruct (parse_year_from_comment soup (now_year w)) as [m1 year].
    cbn [snd] in Hyear. rewrite Hyear, Htable.
    destruct (parse_deliveroo_orders _ _) as [m2 [orders|e]];
      cbn [out_end out_csv out_messages exit_status snd];
      (split; [reflexivity|split; [reflexivity|split]]).
    + exists ErrNoTable. rewrite !app_assoc, last_error_app. auto.
    + left; reflexivity.
    + exists (Traceback e). rewrite !app_assoc, last_error_app. auto.
    + right. exists e. auto.
Qed.

(** C7.  A CSV file that is written starts with the header of six columns,
    and each record after it has six fields, the last one the credit-card
    account.  It is written when the statement opens and has a table with
    one row at least (and the order history raises nothing), and then
    only. *)
Theorem csv_has_header_and_six_columns :
  forall w amex_path deliveroo_path output_path,
    (forall soup t ts m2 orders,
        open_amex w amex_path = Opened soup ->
        amex_table_body soup = Some (t :: ts) ->
        parse_deliveroo_orders deliveroo_path
          (open_deliveroo w deliveroo_path) = (m2, Ok orders) ->
        exists records,
          out_csv (process_html_file w amex_path deliveroo_path output_path)
          = Some (output_path, records))
    /\ (forall path records,
          out_csv (process_html_file w amex_path deliveroo_path output_path)
          = Some (path, records) ->
          (exists soup t ts, open_amex w amex_path = Opened soup
                             /\ amex_table_body soup = Some (t :: ts))
          /\ exists rows,
               records = HEADER :: rows
               /\ Forall (fun r => List.length r = 6%nat
                                   /\ nth_error r 5
                                      = Some (Text CREDIT_CARD_ACCOUNT)) rows).
Proof.
  intros w amex_path deliveroo_path output_path. split.
  - intros soup t ts m2 orders Hopen Htable Hparse.
    destruct (process_html_file_run w amex_path deliveroo_path output_path
                soup t ts m2 orders Hopen Htable Hparse) as (Hcsv & _).
    eauto.
  - intros path records Hcsv.
    destruct (process_html_file_csv_inv _ _ _ _ _ _ Hcsv)
      as (soup & t & ts & m2 & orders & Hopen & Htable & Hparse).
    split; [eauto|].
    destruct (process_html_file_run w amex_path deliveroo_path output_path
                soup t ts m2 orders Hopen Htable Hparse) as (Hcsv' & _).
    rewrite Hcsv' in Hcsv.
    assert (Hrec : records
                   = HEADER
                     :: st_rows
                          (fst (process_transactions (statement_year w soup)
                                  (rev (t :: ts)) (mkstate orders [] []))))
      by congruence.
    subst records. clear Hcsv.
    eexists. split; [reflexivity|].
    destruct (process_transactions_rows (statement_year w soup)
                (rev (t :: ts)) (mkstate orders [] []))
      as (new & sources & later & -> & Hfrom & _).
    cbn [st_rows app].
    apply (Forall2_Forall_left _ _ _ _ Hfrom).
    intros r trx _. apply written_from_shape.
Qed.

(** C8.  In every record written, one of "Amount Debit" and "Amount
    Credit" holds a number and the other is the empty string: for a
    negative amount the credit is its absolute value and the debit is
    empty, otherwise the debit is the amount and the credit is empty.  The
    amount is the one read from the fifth cell of a row of the
    statement. *)
Theorem debit_or_credit :
  forall w amex_path deliveroo_path output_path soup transactions
         path records,
    open_amex w amex_path = Opened soup ->
    amex_table_body soup = Some transactions ->
    out_csv (process_html_file w amex_path deliveroo_path output_path)
    = Some (path, records) ->
    Forall
      (fun r =>
         exists trx f,
           In trx transactions
           /\ row_fields (statement_year w soup) trx (tr_columns trx) = Ok f
           /\ if float_lt0 (f_amount f)
              then nth_error r 3 = Some (Text "")
                   /\ nth_error r 4 = Some (Number (float_abs (f_amount f)))
              else nth_error r 3 = Some (Number (f_amount f))
                   /\ nth_error r 4 = Some (Text ""))
      (tl records).
Proof.
  intros w amex_path deliveroo_path output_path soup transactions
         path records Hopen Htable Hcsv.
  destruct (process_html_file_csv_inv _ _ _ _ _ _ Hcsv)
    as (soup' & t & ts & m2 & orders & Hopen' & Htable' & Hparse).
  rewrite Hopen in Hopen'. injection Hopen' as <-.
  rewrite Htable in Htable'. injection Htable' as ->.
  destruct (process_html_file_run w amex_path deliveroo_path output_path
              soup t ts m2 orders Hopen Htable Hparse) as (Hcsv' & _).
  rewrite Hcsv' in Hcsv.
  assert (Hrec : records
                 = HEADER
                   :: st_rows
                        (fst (process_transactions (statement_year w soup)
                                (rev (t :: ts)) (mkstate orders [] []))))
    by congruence.
  subst records. clear Hcsv. cbn [tl].
  destruct (process_transactions_rows (statement_year w soup)
              (rev (t :: ts)) (mkstate orders [] []))
    as (new & sources & later & -> & Hfrom & Hfilter & _).
  cbn [st_rows app].
  apply (Forall2_Forall_left _ _ _ _ Hfrom).
  intros r trx Hin (f & d & a & Hf & ->).
  exists trx, f. split; [|split; [exact Hf|]].
  - apply (in_rev (t :: ts)).
    apply (proj1 (filter_In (well_formed (statement_year w soup)) trx
                    (rev (t :: ts)))).
    rewrite Hfilter. apply in_or_app. left; exact Hin.
  - unfold csv_row. destruct (float_lt0 (f_amount f)); split; reflexivity.
Qed.

Lemma written_in_turn_unique year :
  forall rows rows' sources orders,
    written_in_turn year orders rows sources ->
    written_in_turn year orders rows' sources ->
    rows' = rows.
Proof.
  induction rows as [|r rows IH]; intros [|r' rows'] [|trx sources] orders;
    cbn [written_in_turn]; intros H H'; try contradiction; try reflexivity.
  destruct H as (f & d & a & o & Hf & Hg & -> & Hrest).
  destruct H' as (f' & d' & a' & o' & Hf' & Hg' & -> & Hrest').
  rewrite Hf in Hf'. injection Hf' as <-.
  rewrite Hg in Hg'. injection Hg' as <- <- <-.
  f_equal. exact (IH _ _ _ Hrest Hrest').
Qed.

(** The loop writes the rows of the rows read in full, in its order, each
    on the table the one before has left. *)
Lemma process_transactions_in_turn year trxs :
  forall st,
  exists new sources later,
    st_rows (fst (process_transactions year trxs st))
    = (st_rows st ++ new)%list
    /\ written_in_turn year (st_orders st) new sources
    /\ filter (well_formed year) trxs = (sources ++ later)%list
    /\ (snd (process_transactions year trxs st) = None -> later = []).
Proof.
  induction trxs as [|trx trxs IH]; intros st.
  - exists [], [], []. cbn [process_transactions fst snd filter app
                            written_in_turn].
    rewrite app_nil_r. repeat split; auto.
  - cbn [process_transactions filter].
    destruct (well_formed year trx) eqn:Hwf.
    + destruct (process_transaction_well_formed year st trx Hwf)
        as (f & Hf & Hstep).
      destruct (get_account_and_description _ _ _ _) as [[[d a] o]|e] eqn:G.
      * rewrite Hstep.
        destruct (IH (mkstate o (st_rows st ++ [csv_row f d a])%list
                        (st_log st)))
          as (new & sources & later & Hrows & Hturn & Hfilter & Hend).
        exists (csv_row f d a :: new), (trx :: sources), later.
        split; [|split; [|split]].
        -- rewrite Hrows. cbn [st_rows]. rewrite <- app_assoc. reflexivity.
        -- cbn [written_in_turn]. exists f, d, a, o.
           cbn [st_orders] in Hturn. auto.
        -- cbn [app]. rewrite Hfilter. reflexivity.
        -- exact Hend.
      * rewrite Hstep. cbn [fst snd].
        exists [], [], (trx :: filter (well_formed year) trxs).
        rewrite app_nil_r. cbn [written_in_turn app].
        split; [reflexivity|split; [exact I|split; [reflexivity|]]].
        discriminate.
    + destruct (process_transaction_skip year st trx Hwf)
        as (st' & -> & Ho & Hr).
      destruct (IH st')
        as (new & sources & later & Hrows & Hturn & Hfilter & Hend).
      exists new, sources, later. rewrite Hrows, Hr. rewrite Ho in Hturn.
      auto.
Qed.

Lemma nth_error_shift {A : Type} (a : A) l positions sources :
  Forall2 (fun p x => nth_error l p = Some x) positions sources ->
  Forall2 (fun p x => nth_error (a :: l) p = Some x) (map S positions)
    sources.
Proof.
  induction 1; cbn [map]; constructor; auto.
Qed.

Lemma StronglySorted_map_S positions :
  StronglySorted lt positions -> StronglySorted lt (map S positions).
Proof.
  induction 1 as [|p ps Hs IH Hall]; cbn [map]; constructor; auto.
  apply Forall_forall. intros q Hq.
  apply in_map_iff in Hq as (q' & <- & Hq').
  pose proof (proj1 (Forall_forall _ _) Hall q' Hq'). lia.
Qed.

(** The elements a filter keeps stand at increasing positions. *)
Lemma filter_positions {A : Type} (keep : A -> bool) (l : list A) :
  forall sources later,
    filter keep l = (sources ++ later)%list ->
    exists positions,
      Forall2 (fun p x => nth_error l p = Some x) positions sources
      /\ StronglySorted lt positions.
Proof.
  induction l as [|a l IH]; intros sources later; cbn [filter].
  - intros H. symmetry in H. apply app_eq_nil in H as [-> _].
    exists []. split; constructor.
  - destruct (keep a).
    + destruct sources as [|x sources]; cbn [app].
      * intros _. exists []. split; constructor.
      * intros H. assert (Hx : a = x) by congruence. subst x.
        assert (H' : filter keep l = (sources ++ later)%list)
          by congruence.
        destruct (IH _ _ H') as (ps & Hps & Hsorted).
        exists (0%nat :: map S ps). split.
        -- constructor; [reflexivity|apply nth_error_shift; exact Hps].
        -- constructor; [apply StronglySorted_map_S; exact Hsorted|].
           apply Forall_forall. intros q Hq.
           apply in_map_iff in Hq as (q' & <- & _). lia.
    + intros H. destruct (IH _ _ H) as (ps & Hps & Hsorted).
      exists (map S ps).
      split; [apply nth_error_shift|apply StronglySorted_map_S]; assumption.
Qed.

(** Increasing positions in the reversed list are decreasing positions in
    the list. *)
Lemma rev_positions {A : Type} (l : list A) positions sources :
  Forall2 (fun p x => nth_error (rev l) p = Some x) positions sources ->
  StronglySorted lt positions ->
  exists positions',
    Forall2 (fun p x => nth_error l p = Some x) positions' sources
    /\ StronglySorted (fun p q => (q < p)%nat) positions'.
Proof.
  intros H2 Hs.
  exists (map (fun p => (List.length l - S p)%nat) positions).
  assert (Hlt : Forall (fun p => (p < List.length l)%nat) positions).
  { clear Hs. induction H2 as [|p x ps xs Hp _ IH]; constructor; auto.
    rewrite <- (length_rev l). apply nth_error_Some. rewrite Hp.
    discriminate. }
  split.
  - clear Hs Hlt.
    induction H2 as [|p x ps xs Hp _ IH]; cbn [map]; constructor; auto.
    rewrite nth_error_rev in Hp.
    destruct (Nat.ltb p (List.length l)); [exact Hp|discriminate].
  - clear H2. revert Hlt.
    induction Hs as [|p ps Hs IH Hall]; intros Hlt; cbn [map]; constructor.
    + apply IH. inversion Hlt; assumption.
    + apply Forall_forall. intros q Hq.
      apply in_map_iff in Hq as (q' & <- & Hq').
      pose proof (proj1 (Forall_forall _ _) Hall q' Hq').
      inversion Hlt as [|? ? Hp Hps]; subst.
      pose proof (proj1 (Forall_forall _ _) Hps q' Hq').
      cbv beta in *. lia.
Qed.

(** C10.  The records after the header are the CSV rows of the statement
    rows that are read in full and not pending, taken from the last row of
    the HTML table to the first.  Each record is made of the fields of its
    own statement row, with the description and the account that
    [get_account_and_description] returns for that row on the table the
    records before it have left, the parsed order history for the first;
    no other list of records is so.  From one record to the next the
    position of the statement row in the HTML table decreases strictly.
    All the rows read in full are written when the program returns, those
    before the exception otherwise. *)
Theorem rows_are_written_in_reverse_order :
  forall w amex_path deliveroo_path output_path soup transactions
         path records,
    open_amex w amex_path = Opened soup ->
    amex_table_body soup = Some transactions ->
    out_csv (process_html_file w amex_path deliveroo_path output_path)
    = Some (path, records) ->
    exists rows sources later positions messages orders,
      records = HEADER :: rows
      /\ parse_deliveroo_orders deliveroo_path
           (open_deliveroo w deliveroo_path) = (messages, Ok orders)
      /\ written_in_turn (statement_year w soup) orders rows sources
      /\ (forall rows',
            written_in_turn (statement_year w soup) orders rows' sources ->
            rows' = rows)
      /\ filter (well_formed (statement_year w soup)) (rev transactions)
         = (sources ++ later)%list
      /\ (out_end (process_html_file w amex_path deliveroo_path output_path)
          = Returned -> later = [])
      /\ Forall2 (fun position trx =>
                    nth_error transactions position = Some trx)
           positions sources
      /\ StronglySorted (fun p q => (q < p)%nat) positions.
Proof.
  intros w amex_path deliveroo_path output_path soup transactions
         path records Hopen Htable Hcsv.
  destruct (process_html_file_csv_inv _ _ _ _ _ _ Hcsv)
    as (soup' & t & ts & m2 & orders & Hopen' & Htable' & Hparse).
  rewrite Hopen in Hopen'. injection Hopen' as <-.
  rewrite Htable in Htable'. injection Htable' as ->.
  destruct (process_html_file_run w amex_path deliveroo_path output_path
              soup t ts m2 orders Hopen Htable Hparse) as (Hcsv' & Hend & _).
  rewrite Hcsv' in Hcsv.
  assert (Hrec : records
                 = HEADER
                   :: st_rows
                        (fst (process_transactions (statement_year w soup)
                                (rev (t :: ts)) (mkstate orders [] []))))
    by congruence.
  subst records. clear Hcsv.
  destruct (process_transactions_in_turn (statement_year w soup)
              (rev (t :: ts)) (mkstate orders [] []))
    as (new & sources & later & Hrows & Hturn & Hfilter & Hlater).
  cbn [st_rows st_orders app] in Hrows, Hturn.
  destruct (filter_positions _ _ _ _ Hfilter) as (ps & Hps & Hsorted).
  destruct (rev_positions _ _ _ Hps Hsorted) as (positions & Hpos & Hdec).
  exists new, sources, later, positions, m2, orders. rewrite Hrows.
  split; [reflexivity|]. split; [exact Hparse|]. split; [exact Hturn|].
  split; [intros rows' H'; exact (written_in_turn_unique _ _ _ _ _ Hturn H')|].
  split; [exact Hfilter|]. split; [|split; [exact Hpos|exact Hdec]].
  rewrite Hend. intros Hret. apply Hlater.
  destruct (snd (process_transactions _ _ _)); [discriminate|reflexivity].
Qed.


End Program.

(** * The theorems on the documents of the examples *)

(** C4 as stated fails: the statement has one row, of four cells; the row
    is skipped (the file holds the header alone) and no message on it is
    printed. *)
Lemma short_row_is_not_logged :
  short short_row
  /\ process_html_file (lib := ascii_lib)
       (example_world (Some [short_row]) FileNotFound)
       "amex.html" "orders.html" "out.csv"
     = mkoutcome
         [WarnDeliverooNotFound "orders.html"; MsgFoundTransactions 1 "2025";
          MsgConverted "out.csv"; MsgImportHint]
         (Some ("out.csv", [HEADER])) Returned.
Proof.
  split; [unfold short; cbn; lia|vm_compute; reflexivity].
Qed.


Lemma candidates_consumed_once_in_order_witness :
  exists outs final account,
    categorize_all (lib := ascii_lib) three_calls two_orders_table
    = Ok (outs, final)
    /\ nth_error outs 1 = Some ("Deliveroo: Pizza Pilgrims", account)
    /\ nth_error outs 2 = Some ("deliveroo.co.uk", "Despesas:Comida").
Proof.
  assert (Hparse : parse_orders (lib := ascii_lib) two_orders []
                   = ([], Ok two_orders_table))
    by (vm_compute; reflexivity).
  assert (Hall : Forall (quantizes (lib := ascii_lib)) three_calls).
  { repeat constructor; intros _; eexists; vm_compute; reflexivity. }
  destruct (candidates_consumed_once_in_order (lib := ascii_lib)
              two_orders [] two_orders_table three_calls Hparse Hall)
    as (outs & final & Hrun & _ & Hnth & _).
  destruct (Hnth 1%nat "Deliveroo London" july_13 eight_fifty eight_fifty_key)
    as [account Hout]; [reflexivity|vm_compute; reflexivity|].
  exists outs, final, account. split; [exact Hrun|].
  split; [exact Hout|].
  assert (E : categorize_all (lib := ascii_lib) three_calls two_orders_table
              = Ok ([("Deliveroo: GAIL's Bakery", "Despesas:Supermercado");
                     ("Deliveroo: Pizza Pilgrims", "Despesas:Comida");
                     ("deliveroo.co.uk", "Despesas:Comida")],
                    [(eight_fifty_key, [])]))
    by (vm_compute; reflexivity).
  rewrite E in Hrun. injection Hrun as <- _. reflexivity.
Defined.

Lemma unreadable_rows_are_skipped_witness :
  process_transaction (lib := ascii_lib) "2025" gail_state short_row
  = Ok gail_state
  /\ exists e,
       (e = AttributeError \/ e = ValueError)
       /\ process_transaction (lib := ascii_lib) "2025" gail_state
            bad_date_row
          = Ok (log gail_state (MsgSkipRow e)).
Proof.
  pose (st := gail_state).
  destruct (unreadable_rows_are_skipped (lib := ascii_lib) "2025" short_row)
    as (Hshort & _ & _).
  destruct (unreadable_rows_are_skipped (lib := ascii_lib) "2025" bad_date_row)
    as (_ & Hbad & _).
  split.
  - apply Hshort. unfold short. cbn. lia.
  - apply Hbad. unfold malformed, bad_date_row, row.
    do 6 eexists. split; [reflexivity|]. split; [vm_compute; reflexivity|].
    right. left. eexists. split; [reflexivity|]. vm_compute; reflexivity.
Defined.

Lemma pending_rows_are_skipped_witness :
  exists st',
    process_transaction (lib := ascii_lib) "2025" gail_state pending_row
    = Ok st'
    /\ st_rows st' = st_rows gail_state
    /\ st_orders st' = st_orders gail_state.
Proof.
  pose (st := gail_state).
  destruct (pending_rows_are_skipped (lib := ascii_lib) "2025" pending_row)
    as (H & _).
  - unfold pending, pending_row, row. eexists.
    split; [reflexivity|vm_compute; reflexivity].
  - destruct (H st) as (st' & H1 & H2 & H3 & _). eauto.
Defined.


Lemma missing_statement_aborts_witness :
  exit_status
    (out_end (process_html_file (lib := ascii_lib) no_statement_world
                "amex.html" "orders.html" "out.csv")) = 1%Z
  /\ out_csv (process_html_file (lib := ascii_lib) no_statement_world
                "amex.html" "orders.html" "out.csv") = None.
Proof.
  destruct (missing_statement_aborts (lib := ascii_lib) no_statement_world
              "amex.html" "orders.html" "out.csv")
    as (H1 & H2 & _); [left; reflexivity|].
  split; [exact H1|exact H2].
Defined.

Lemma csv_has_header_and_six_columns_witness :
  exists records rows,
    out_csv (process_html_file (lib := ascii_lib)
               (example_world (Some example_rows) (Opened two_orders))
               "amex.html" "orders.html" "out.csv")
    = Some ("out.csv", records)
    /\ records = HEADER :: rows
    /\ Forall (fun r => List.length r = 6%nat
                        /\ nth_error r 5 = Some (Text CREDIT_CARD_ACCOUNT))
         rows.
Proof.
  destruct (csv_has_header_and_six_columns (lib := ascii_lib)
              (example_world (Some example_rows) (Opened two_orders))
              "amex.html" "orders.html" "out.csv") as (Hwritten & Hshape).
  destruct (Hwritten (mkamex [statement_comment] (Some example_rows))
              refund_row [deliveroo_row; boots_row]
              [MsgFoundOrders 2] two_orders_table)
    as (records & Hcsv);
    [reflexivity|reflexivity|vm_compute; reflexivity|].
  destruct (Hshape "out.csv" records Hcsv) as (_ & rows & Hrec & Hall).
  exists records, rows. auto.
Defined.

Lemma debit_or_credit_witness :
  Forall
    (fun r =>
       exists trx f,
         In trx example_rows
         /\ row_fields (lib := ascii_lib) "2025" trx (tr_columns trx) = Ok f
         /\ if float_lt0 (f_amount f)
            then nth_error r 3 = Some (Text "")
                 /\ nth_error r 4 = Some (Number (float_abs (f_amount f)))
            else nth_error r 3 = Some (Number (f_amount f))
                 /\ nth_error r 4 = Some (Text ""))
    [ [Text "2025-07-13"; Text "BOOTS 0123"; Text "Despesas:Saúde";
       Number (Ffinite false 125 (-1)); Text ""; Text CREDIT_CARD_ACCOUNT];
      [Text "2025-07-13"; Text "Deliveroo: GAIL's Bakery";
       Text "Despesas:Supermercado"; Number eight_fifty; Text "";
       Text CREDIT_CARD_ACCOUNT];
      [Text "2025-07-12"; Text "PAYMENT RECEIVED - THANK YOU";
       Text "Total:Ativo:Conta corrente:Monzo"; Text "";
       Number (Ffinite false 1000 (-1)); Text CREDIT_CARD_ACCOUNT] ].
Proof.
  apply (debit_or_credit (lib := ascii_lib)
           (example_world (Some example_rows) (Opened two_orders))
           "amex.html" "orders.html" "out.csv"
           (mkamex [statement_comment] (Some example_rows)) example_rows
           "out.csv"
           (HEADER
            :: [ [Text "2025-07-13"; Text "BOOTS 0123"; Text "Despesas:Saúde";
                  Number (Ffinite false 125 (-1)); Text "";
                  Text CREDIT_CARD_ACCOUNT];
                 [Text "2025-07-13"; Text "Deliveroo: GAIL's Bakery";
                  Text "Despesas:Supermercado"; Number eight_fifty; Text "";
                  Text CREDIT_CARD_ACCOUNT];
                 [Text "2025-07-12"; Text "PAYMENT RECEIVED - THANK YOU";
                  Text "Total:Ativo:Conta corrente:Monzo"; Text "";
                  Number (Ffinite false 1000 (-1));
                  Text CREDIT_CARD_ACCOUNT] ]));
    [reflexivity|reflexivity|vm_compute; reflexivity].
Defined.

Lemma rows_are_written_in_reverse_order_witness :
  exists rows sources later positions messages orders,
    example_csv = HEADER :: rows
    /\ parse_deliveroo_orders (lib := ascii_lib) "orders.html"
         (Opened two_orders) = (messages, Ok orders)
    /\ written_in_turn (lib := ascii_lib)
         (statement_year (lib := ascii_lib)
            (example_world (Some example_rows) (Opened two_orders))
            (mkamex [statement_comment] (Some example_rows)))
         orders rows sources
    /\ (forall rows',
          written_in_turn (lib := ascii_lib)
            (statement_year (lib := ascii_lib)
               (example_world (Some example_rows) (Opened two_orders))
               (mkamex [statement_comment] (Some example_rows)))
            orders rows' sources ->
          rows' = rows)
    /\ filter
         (well_formed (lib := ascii_lib)
            (statement_year (lib := ascii_lib)
               (example_world (Some example_rows) (Opened two_orders))
               (mkamex [statement_comment] (Some example_rows))))
         (rev example_rows)
       = (sources ++ later)%list
    /\ (out_end
          (process_html_file (lib := ascii_lib)
             (example_world (Some example_rows) (Opened two_orders))
             "amex.html" "orders.html" "out.csv")
        = Returned -> later = [])
    /\ Forall2 (fun position trx =>
                  nth_error example_rows position = Some trx)
         positions sources
    /\ StronglySorted (fun p q => (q < p)%nat) positions.
Proof.
  apply (rows_are_written_in_reverse_order (lib := ascii_lib)
           (example_world (Some example_rows) (Opened two_orders))
           "amex.html" "orders.html" "out.csv"
           (mkamex [statement_comment] (Some example_rows)) example_rows
           "out.csv" example_csv);
    [reflexivity|reflexivity|vm_compute; reflexivity].
Defined.

(** The order of the records is fixed between two rows of the same day
    and amount too: for the table with [boots_row] above [uniqlo_row] the
    file holds the record of UNIQLO before that of BOOTS, and the two
    records the other way round are not the rows of those statement
    rows. *)
Lemma same_day_rows_are_not_swapped :
  out_csv
    (process_html_file (lib := ascii_lib)
       (example_world (Some [boots_row; uniqlo_row]) FileNotFound)
       "amex.html" "orders.html" "out.csv")
  = Some ("out.csv", [HEADER; uniqlo_record; boots_record])
  /\ written_in_turn (lib := ascii_lib) "2025" []
       [uniqlo_record; boots_record] [uniqlo_row; boots_row]
  /\ ~ written_in_turn (lib := ascii_lib) "2025" []
         [boots_record; uniqlo_record] [uniqlo_row; boots_row].
Proof.
  assert (H : written_in_turn (lib := ascii_lib) "2025" []
                [uniqlo_record; boots_record] [uniqlo_row; boots_row]).
  { cbn [written_in_turn].
    eexists; exists "UNIQLO", "Despesas:Vestuário", [].
    split; [vm_compute; reflexivity|].
    split; [vm_compute; reflexivity|]. split; [reflexivity|].
    eexists; exists "BOOTS 0123", "Despesas:Saúde", [].
    split; [vm_compute; reflexivity|].
    split; [vm_compute; reflexivity|]. split; [reflexivity|exact I]. }
  split; [vm_compute; reflexivity|]. split; [exact H|].
  intros H'.
  pose proof (written_in_turn_unique (lib := ascii_lib) _ _ _ _ _ H H') as E.
  discriminate E.
Qed.

(** * Further properties of the script *)

Section Further.
Context {lib : PyLib}.

Lemma find_year_first_match comments :
  match find_year comments with
  | Some year =>
      exists before comment after,
        comments = (before ++ comment :: after)%list
        /\ Forall no_year before
        /\ contains "saved from url" comment = true
        /\ re_search_end_year comment = Some year
  | None => Forall no_year comments
  end.
Proof.
  induction comments as [|c comments IH]; cbn [find_year]; [constructor|].
  destruct (contains "saved from url" c) eqn:C.
  - destruct (re_search_end_year c) as [y|] eqn:R.
    + exists [], c, comments. repeat split; auto.
    + destruct (find_year comments) as [year|].
      * destruct IH as (before & comment & after & -> & Hb & Hc & Hr).
        exists (c :: before), comment, after. repeat split; auto.
        constructor; [right; exact R|exact Hb].
      * constructor; [right; exact R|exact IH].
  - destruct (find_year comments) as [year|].
    + destruct IH as (before & comment & after & -> & Hb & Hc & Hr).
      exists (c :: before), comment, after. repeat split; auto.
      constructor; [left; exact C|exact Hb].
    + constructor; [left; exact C|exact IH].
Qed.

(** The year of the statement is never empty.  It is the end year of the
    first comment of the saved URL that has an end date, and nothing is
    printed; or no comment gives a year, a warning is printed and the year
    is the current one. *)
Theorem year_is_first_match_or_current :
  forall soup now,
    snd (parse_year_from_comment soup now) <> EmptyString
    /\ ((fst (parse_year_from_comment soup now) = []
         /\ exists before comment after,
              amex_comments soup = (before ++ comment :: after)%list
              /\ Forall no_year before
              /\ contains "saved from url" comment = true
              /\ re_search_end_year comment
                 = Some (snd (parse_year_from_comment soup now)))
        \/ (fst (parse_year_from_comment soup now) = [WarnYearFallback]
            /\ snd (parse_year_from_comment soup now) = str_of_N now
            /\ Forall no_year (amex_comments soup))).
Proof.
  intros soup now. split.
  - pose proof (statement_year_nonempty (mkworld (fun _ => FileNotFound)
                                           (fun _ => FileNotFound) now) soup)
      as H.
    unfold statement_year in H. cbn [now_year] in H.
    intros E. rewrite E in H. discriminate H.
  - pose proof (find_year_first_match (amex_comments soup)) as H.
    unfold parse_year_from_comment.
    destruct (find_year (amex_comments soup)) as [year|]; cbn [fst snd].
    + left. split; [reflexivity|exact H].
    + right. auto.
Qed.

(** Once the statement is open, the program leaves through [sys.exit] for
    a missing transaction table only, with status 1: the test of the year
    never fires. *)
Theorem opened_statement_exits_for_missing_table_only :
  forall w amex_path deliveroo_path output_path soup code,
    open_amex w amex_path = Opened soup ->
    out_end (process_html_file w amex_path deliveroo_path output_path)
    = SysExit code ->
    code = 1%Z /\ amex_table_body soup = None.
Proof.
  intros w amex_path deliveroo_path output_path soup code Hopen.
  pose proof (statement_year_nonempty w soup) as Hyear.
  unfold process_html_file, statement_year in *. rewrite Hopen.
  destruct (parse_year_from_comment soup (now_year w)) as [m1 year].
  cbn [snd] in Hyear. rewrite Hyear.
  destruct (parse_deliveroo_orders _ _) as [m2 [orders|e]];
    cbn [out_end]; [|discriminate].
  destruct (amex_table_body soup) as [[|t ts]|]; cbn [out_end].
  - discriminate.
  - destruct (process_transactions _ _ _) as [st [e|]]; discriminate.
  - intros [= <-]. auto.
Qed.

(** A statement whose table has no transaction row: the program says so
    and returns, and writes no CSV file. *)
Theorem empty_table_writes_nothing :
  forall w amex_path deliveroo_path output_path soup m2 orders,
    open_amex w amex_path = Opened soup ->
    amex_table_body soup = Some [] ->
    parse_deliveroo_orders deliveroo_path (open_deliveroo w deliveroo_path)
    = (m2, Ok orders) ->
    let out := process_html_file w amex_path deliveroo_path output_path in
    out_csv out = None
    /\ out_end out = Returned
    /\ last_error (out_messages out) = Some MsgNoTransactions.
Proof.
  intros w amex_path deliveroo_path output_path soup m2 orders
         Hopen Htable Hparse out. subst out.
  pose proof (statement_year_nonempty w soup) as Hyear.
  unfold process_html_file, statement_year in *. rewrite Hopen.
  destruct (parse_year_from_comment soup (now_year w)) as [m1 year].
  cbn [snd] in Hyear. rewrite Hyear, Hparse, Htable.
  cbn [out_csv out_end out_messages].
  split; [reflexivity|]. split; [reflexivity|].
  rewrite !app_assoc. apply last_error_app.
Qed.

(** [main] writes a CSV file under the name amex_gnucash_categorized.csv
    only, and only when called with two arguments; with another number of
    arguments it prints the usage and exits with status 1. *)
Theorem main_writes_one_file :
  forall w argv,
    (forall path records,
        out_csv (main w argv) = Some (path, records) ->
        path = "amex_gnucash_categorized.csv"
        /\ List.length argv = 3%nat)
    /\ (List.length argv <> 3%nat ->
        main w argv = mkoutcome [MsgUsage] None (SysExit 1)).
Proof.
  intros w argv.
  destruct argv as [|a0 [|a1 [|a2 [|a3 rest]]]]; cbn [main List.length];
    split; try discriminate; try reflexivity; try (intros H; lia).
  intros path records Hcsv.
  destruct (process_html_file_csv_inv _ _ _ _ _ _ Hcsv)
    as (soup & t & ts & m2 & orders & Hopen & Htable & Hparse).
  destruct (process_html_file_run w a1 a2 "amex_gnucash_categorized.csv"
              soup t ts m2 orders Hopen Htable Hparse) as (Hcsv' & _).
  rewrite Hcsv' in Hcsv. split; [congruence|reflexivity].
Qed.

Lemma last_error_cons {A : Type} (a : A) (l : list A) :
  exists x, last_error (a :: l) = Some x.
Proof.
  revert a. induction l as [|b l IH]; intros a; [exists a; reflexivity|].
  destruct (IH b) as [x Hx]. exists x. exact Hx.
Qed.

(** What an order item can raise: [AttributeError] for an item without
    text, never [IndexError]. *)
Lemma parse_order_raises item e :
  parse_order item = Raise e ->
  (e = AttributeError /\ item = [])
  \/ e = ValueError \/ e = InvalidOperation \/ e = TypeError.
Proof.
  unfold parse_order. destruct item as [|p item]; cbn [hd_error attr bind].
  - intros [= <-]. auto.
  - destruct (last_error_cons p item) as [x ->]. cbn [or_raise bind].
    destruct (map strip (split "•" x)) as [|a [|b [|c l]]];
      try (intros [= <-]; auto).
    destruct (Decimal_of_string _) as [amount|]; cbn [or_raise bind];
      [|intros [= <-]; auto].
    destruct (strptime_dBY b); cbn [or_raise bind]; [|intros [= <-]; auto].
    destruct amount as [neg coef exp|neg|[|]]; try discriminate.
    intros [= <-]. auto.
Qed.

Lemma count_orders_cons k v d :
  count_orders ((k, v) :: d) = (List.length v + count_orders d)%nat.
Proof. reflexivity. Qed.

Lemma count_orders_store d k v old :
  dict_get d k = Some old ->
  (count_orders (dict_store d k v) + List.length old
   = count_orders d + List.length v)%nat.
Proof.
  induction d as [|[k' v'] d IH]; cbn [dict_get dict_store]; [discriminate|].
  destruct (key_eqb k' k).
  - intros [= ->]. rewrite !count_orders_cons. lia.
  - intros H. rewrite !count_orders_cons. specialize (IH H). lia.
Qed.

Lemma count_orders_append d k name :
  count_orders (dict_append d k name) = S (count_orders d).
Proof.
  unfold dict_append. destruct (dict_get d k) as [v|] eqn:G.
  - pose proof (count_orders_store d k (v ++ [name])%list v G) as H.
    rewrite length_app in H. cbn [List.length] in H. lia.
  - unfold count_orders. rewrite map_app, list_sum_app. cbn. lia.
Qed.

Lemma parse_orders_count items :
  forall d ms d',
    parse_orders items d = (ms, Ok d') ->
    count_orders d'
    = (count_orders d + List.length (filter order_parses items))%nat
    /\ (List.length ms + List.length (filter order_parses items)
        = List.length items)%nat
    /\ Forall (fun m => m = MsgSkipOrder AttributeError
                        \/ m = MsgSkipOrder ValueError) ms.
Proof.
  induction items as [|item items IH]; intros d ms d';
    cbn [parse_orders filter].
  - intros [= <- <-]. cbn. repeat split; auto.
  - destruct (parse_order item) as [[k name]|e] eqn:P.
    + assert (OP : order_parses item = true)
        by (unfold order_parses; rewrite P; reflexivity).
      rewrite OP.
      intros H. destruct (IH _ _ _ H) as (H1 & H2 & H3).
      rewrite count_orders_append in H1. cbn [List.length].
      repeat split; [lia|lia|exact H3].
    + assert (OP : order_parses item = false)
        by (unfold order_parses; rewrite P; reflexivity).
      rewrite OP.
      destruct (parse_order_raises item e P) as [[-> _] | [-> | [-> | ->]]];
        try discriminate;
        destruct (parse_orders items d) as [ms' r] eqn:E;
        intros [= <- ->]; destruct (IH _ _ _ E) as (H1 & H2 & H3);
        cbn [List.length]; (repeat split; [lia|lia|]);
        constructor; auto.
Qed.

(** The number printed after the order history is read is the number of
    order items read in full, which is also the number of restaurants in
    the table; every other item is reported as skipped, for an
    [AttributeError] or a [ValueError]. *)
Theorem order_items_are_counted_or_skipped :
  forall path items ms orders,
    parse_deliveroo_orders path (Opened items) = (ms, Ok orders) ->
    exists skips,
      ms = (skips
            ++ [MsgFoundOrders (List.length (filter order_parses items))])%list
      /\ count_orders orders = List.length (filter order_parses items)
      /\ (List.length skips + List.length (filter order_parses items)
          = List.length items)%nat
      /\ Forall (fun m => m = MsgSkipOrder AttributeError
                          \/ m = MsgSkipOrder ValueError) skips.
Proof.
  intros path items ms orders. cbn [parse_deliveroo_orders].
  destruct (parse_orders items []) as [skips [d|e]] eqn:E; [|discriminate].
  intros [= <- <-].
  destruct (parse_orders_count items [] skips d E) as (H1 & H2 & H3).
  cbn in H1. exists skips. rewrite H1. auto.
Qed.

Lemma map_fst_store d k v :
  map fst (dict_store d k v) = map fst d.
Proof.
  induction d as [|[k' v'] d IH]; cbn [dict_store map fst]; [reflexivity|].
  destruct (key_eqb k' k); cbn [map fst]; [reflexivity|].
  rewrite IH. reflexivity.
Qed.

Lemma dict_get_none_keys d k :
  dict_get d k = None ->
  Forall (fun a => key_eqb a k = false) (map fst d).
Proof.
  induction d as [|[k' v'] d IH]; cbn [dict_get map fst]; [constructor|].
  destruct (key_eqb k' k) eqn:E; [discriminate|].
  intros H. constructor; [exact E|exact (IH H)].
Qed.

Lemma ForallOrdPairs_snoc {A : Type} (R : A -> A -> Prop) l x :
  ForallOrdPairs R l -> Forall (fun a => R a x) l ->
  ForallOrdPairs R (l ++ [x])%list.
Proof.
  induction 1 as [|a l Ha Hl IH]; intros Hx; cbn [app].
  - constructor; constructor.
  - inversion Hx; subst. constructor.
    + apply Forall_app. split; [exact Ha|]. constructor; [assumption|constructor].
    + apply IH. assumption.
Qed.

Lemma Forall_store (P : list string -> Prop) d k v :
  Forall (fun kv => P (snd kv)) d -> P v ->
  Forall (fun kv => P (snd kv)) (dict_store d k v).
Proof.
  induction 1 as [|[k' v'] d Hkv Hd IH]; intros Hv; cbn [dict_store];
    [constructor|].
  destruct (key_eqb k' k); constructor; auto.
Qed.

Lemma dict_append_well_formed d k name :
  distinct_keys d -> Forall (fun kv => snd kv <> []) d ->
  distinct_keys (dict_append d k name)
  /\ Forall (fun kv => snd kv <> []) (dict_append d k name).
Proof.
  unfold distinct_keys, dict_append. intros Hd Hn.
  destruct (dict_get d k) as [v|] eqn:G.
  - rewrite map_fst_store. split; [exact Hd|].
    apply (Forall_store (fun v => v <> [])); [exact Hn|].
    destruct v; discriminate.
  - rewrite map_app. cbn [map fst]. split.
    + apply ForallOrdPairs_snoc; [exact Hd|exact (dict_get_none_keys d k G)].
    + apply Forall_app. split; [exact Hn|].
      constructor; [discriminate|constructor].
Qed.

Lemma parse_orders_well_formed items :
  forall d ms d',
    parse_orders items d = (ms, Ok d') ->
    distinct_keys d -> Forall (fun kv => snd kv <> []) d ->
    distinct_keys d' /\ Forall (fun kv => snd kv <> []) d'.
Proof.
  induction items as [|item items IH]; intros d ms d'; cbn [parse_orders].
  - intros [= _ <-]. auto.
  - destruct (parse_order item) as [[k name]|e].
    + intros H Hd Hn.
      destruct (dict_append_well_formed d k name Hd Hn) as [Hd' Hn'].
      exact (IH _ _ _ H Hd' Hn').
    + destruct e; try discriminate;
        destruct (parse_orders items d) as [ms' r] eqn:E;
        intros [= _ ->]; exact (IH _ _ _ E).
Qed.

(** In the table built from the order history no two entries have equal
    keys, and every entry lists one restaurant at least. *)
Theorem parsed_table_is_well_formed :
  forall items ms orders,
    parse_orders items [] = (ms, Ok orders) ->
    distinct_keys orders /\ Forall (fun kv => snd kv <> []) orders.
Proof.
  intros items ms orders H.
  apply (parse_orders_well_formed items [] ms orders H); constructor.
Qed.


(** A call changes nothing under the keys it does not look up. *)
Theorem a_call_leaves_the_other_keys :
  forall description date_obj amount d description' account d' k,
    get_account_and_description description date_obj amount d
    = Ok (description', account, d') ->
    looks_up k (description, date_obj, amount) = false ->
    dict_get d' k = dict_get d k.
Proof.
  intros description date_obj amount d description' account d' k.
  rewrite get_account_and_description_cases.
  unfold looks_up, lookup_key_of.
  destruct (contains "DELIVEROO" (upper description)).
  - destruct (quantize_cents (Decimal_of_float amount)) as [q|e];
      [|discriminate].
    destruct (dict_get d (date_obj, q)) as [[|name rest]|] eqn:G;
      intros [= <- <- <-] Hk; try reflexivity.
    rewrite dict_get_store, Hk. reflexivity.
  - intros [= <- <- <-] _. reflexivity.
Qed.

Lemma rejected_amount_raises item :
  rejected_amount item -> parse_order item = Raise InvalidOperation.
Proof.
  intros (first & details & amount_str & date_str & Hhd & Hlast & Hsplit
          & Hdec).
  unfold parse_order. rewrite Hhd, Hlast. cbn [attr or_raise bind].
  rewrite Hsplit. cbn [or_raise bind]. rewrite Hdec. reflexivity.
Qed.

Lemma parse_orders_rejected before item after :
  Forall parsed_or_skipped before ->
  rejected_amount item ->
  forall d, exists ms,
    parse_orders (before ++ item :: after)%list d
    = (ms, Raise InvalidOperation).
Proof.
  intros Hbefore Hitem.
  induction Hbefore as [|i before Hi _ IH]; intros d;
    cbn [app parse_orders].
  - rewrite (rejected_amount_raises _ Hitem). eexists; reflexivity.
  - destruct Hi as [Hi | [Hi | Hi]].
    + unfold order_parses in Hi.
      destruct (parse_order i) as [[k name]|e]; [apply IH|discriminate].
    + rewrite Hi. destruct (IH d) as [ms ->]. eexists; reflexivity.
    + rewrite Hi. destruct (IH d) as [ms ->]. eexists; reflexivity.
Qed.

(** An order whose amount [Decimal()] rejects is not skipped like the
    other unreadable orders.  When the statement opens and the items
    before that order are read or skipped, [InvalidOperation] leaves
    [parse_deliveroo_orders]: the program ends there with a traceback and
    status 1, and no CSV file is written, whatever the statement holds. *)
Theorem rejected_order_amount_ends_the_program :
  forall w amex_path deliveroo_path output_path soup before item after,
    open_amex w amex_path = Opened soup ->
    open_deliveroo w deliveroo_path = Opened (before ++ item :: after)%list ->
    Forall parsed_or_skipped before ->
    rejected_amount item ->
    let out := process_html_file w amex_path deliveroo_path output_path in
    out_end out = Unhandled InvalidOperation
    /\ exit_status (out_end out) = 1%Z
    /\ out_csv out = None
    /\ last_error (out_messages out) = Some (Traceback InvalidOperation).
Proof.
  intros w amex_path deliveroo_path output_path soup before item after
         Hopen Horders Hbefore Hitem out. subst out.
  pose proof (statement_year_nonempty w soup) as Hyear.
  unfold process_html_file, statement_year in *. rewrite Hopen.
  destruct (parse_year_from_comment soup (now_year w)) as [m1 year].
  cbn [snd] in Hyear. rewrite Hyear.
  unfold parse_deliveroo_orders. rewrite Horders.
  destruct (parse_orders_rejected before item after Hbefore Hitem [])
    as [ms ->].
  cbn [out_end out_csv out_messages exit_status].
  split; [reflexivity|]. split; [reflexivity|]. split; [reflexivity|].
  rewrite app_assoc. apply last_error_app.
Qed.

Lemma scan_rules_in rules text account :
  scan_rules rules text = Some account -> In account (map fst rules).
Proof.
  induction rules as [|[a kws] rules IH]; cbn [scan_rules map fst];
    [discriminate|].
  destruct (existsb _ kws).
  - intros [= <-]. left; reflexivity.
  - intros H. right. exact (IH H).
Qed.

Lemma account_for_configured default text :
  In default ["Despesas:Comida"; DEFAULT_EXPENSE_ACCOUNT] ->
  In (account_for default text) CONFIGURED_ACCOUNTS.
Proof.
  intros H. unfold account_for, CONFIGURED_ACCOUNTS. apply in_or_app.
  destruct (scan_rules ACCOUNT_RULES (upper text)) as [a|] eqn:E.
  - left. exact (scan_rules_in _ _ _ E).
  - right. exact H.
Qed.

Lemma get_account_and_description_configured
      description date_obj amount d description' account d' :
  get_account_and_description description date_obj amount d
  = Ok (description', account, d') ->
  In account CONFIGURED_ACCOUNTS.
Proof.
  rewrite get_account_and_description_cases.
  destruct (contains "DELIVEROO" (upper description)).
  - destruct (quantize_cents (Decimal_of_float amount)) as [q|e];
      [|discriminate].
    destruct (dict_get d (date_obj, q)) as [[|name rest]|];
      intros [= <- <- <-]; apply account_for_configured; left; reflexivity.
  - intros [= <- <- <-]. apply account_for_configured.
    right; left; reflexivity.
Qed.

(** The account of every record written is one the configuration names:
    an account of [ACCOUNT_RULES], "Despesas:Comida" or the default. *)
Theorem every_account_is_configured :
  forall w amex_path deliveroo_path output_path path records,
    out_csv (process_html_file w amex_path deliveroo_path output_path)
    = Some (path, records) ->
    Forall (fun r => exists account,
                nth_error r 2 = Some (Text account)
                /\ In account CONFIGURED_ACCOUNTS)
           (tl records).
Proof.
  intros w amex_path deliveroo_path output_path path records Hcsv.
  destruct (process_html_file_csv_inv _ _ _ _ _ _ Hcsv)
    as (soup & t & ts & m2 & orders & Hopen & Htable & Hparse).
  destruct (process_html_file_run w amex_path deliveroo_path output_path
              soup t ts m2 orders Hopen Htable Hparse) as (Hcsv' & _).
  rewrite Hcsv' in Hcsv.
  assert (Hrec : records
                 = HEADER
                   :: st_rows
                        (fst (process_transactions (statement_year w soup)
                                (rev (t :: ts)) (mkstate orders [] []))))
    by congruence.
  subst records. cbn [tl].
  destruct (process_transactions_invariant (statement_year w soup)
              (fun _ => True)
              (fun r _ => exists account,
                   nth_error r 2 = Some (Text account)
                   /\ In account CONFIGURED_ACCOUNTS))
    with (trxs := rev (t :: ts)) (st := mkstate orders [] [])
    as (new & sources & later & Hrows & _ & Hall & _); [|exact I|].
  - intros trx f o d a o' _ _ G. split; [exact I|].
    exists a. split.
    + unfold csv_row. destruct (float_lt0 (f_amount f)); reflexivity.
    + exact (get_account_and_description_configured _ _ _ _ _ _ _ G).
  - rewrite Hrows. cbn [st_rows app].
    apply (Forall2_Forall_left _ _ _ _ Hall). intros r trx _ H. exact H.
Qed.

(** What a row gives does not depend on the badge, but for the suffix of
    the description. *)
Lemma row_fields_badge year columns b1 b2 :
  match row_fields year (mktr columns b1) columns with
  | Ok f1 =>
      exists f2,
        row_fields year (mktr columns b2) columns = Ok f2
        /\ f_date f2 = f_date f1
        /\ f_formatted_date f2 = f_formatted_date f1
        /\ f_description f2 = f_description f1
        /\ f_amount f2 = f_amount f1
  | Raise e => row_fields year (mktr columns b2) columns = Raise e
  end.
Proof.
  unfold row_fields.
  destruct (column columns 0) as [c0|e]; cbn [bind]; [|reflexivity].
  destruct (attr (td_div c0)) as [s|e]; cbn [bind]; [|reflexivity].
  destruct (or_raise ValueError (strptime_dbY _)) as [date_obj|e];
    cbn [bind]; [|reflexivity].
  destruct (column columns 2) as [c2|e]; cbn [bind]; [|reflexivity].
  destruct (attr (td_a c2)) as [a|e]; cbn [bind]; [|reflexivity].
  destruct (column columns 4) as [c4|e]; cbn [bind]; [|reflexivity].
  destruct (attr (td_p c4)) as [p|e]; cbn [bind]; [|reflexivity].
  destruct (or_raise ValueError (float_of_string _)) as [x|e];
    cbn [bind]; [|reflexivity].
  eexists. split; [reflexivity|]. cbn. auto.
Qed.

Lemma csv_row_badge f1 f2 d a i :
  f_date f2 = f_date f1 ->
  f_formatted_date f2 = f_formatted_date f1 ->
  f_amount f2 = f_amount f1 ->
  i <> 1%nat ->
  nth_error (csv_row f2 d a) i = nth_error (csv_row f1 d a) i.
Proof.
  intros _ Hf Ha Hi. unfold csv_row. rewrite Ha, Hf.
  destruct (float_lt0 (f_amount f1));
    destruct i as [|[|i]]; try reflexivity; contradiction.
Qed.

(** The badge of the supplementary card changes the description of the
    record written for the row, and nothing else: with another badge the
    row is skipped, or raises, or is written in the same way, with the
    same table left and the same fields but the description. *)
Theorem badge_changes_the_description_only :
  forall year columns b1 b2 st,
    match process_transaction year st (mktr columns b1) with
    | Ok st1 =>
        exists st2,
          process_transaction year st (mktr columns b2) = Ok st2
          /\ st_orders st2 = st_orders st1
          /\ st_log st2 = st_log st1
          /\ Forall2 (fun r1 r2 => forall i, i <> 1%nat ->
                                   nth_error r2 i = nth_error r1 i)
               (st_rows st1) (st_rows st2)
    | Raise e => process_transaction year st (mktr columns b2) = Raise e
    end.
Proof.
  intros year columns b1 b2 st.
  assert (Hsame : Forall2 (fun r1 r2 : record =>
                             forall i, i <> 1%nat ->
                                       nth_error r2 i = nth_error r1 i)
                    (st_rows st) (st_rows st)).
  { induction (st_rows st); constructor; auto. }
  unfold process_transaction. cbn [tr_columns].
  destruct (List.length columns <? 5)%nat; [exists st; auto|].
  unfold row_body.
  destruct (column columns 1) as [c1|e]; cbn [bind];
    [|destruct e; try reflexivity; eexists; cbn; auto].
  destruct (is_pending c1).
  - destruct (pending_message columns) as [m|e]; cbn [bind];
      [|destruct e; try reflexivity; eexists; cbn; auto].
    eexists. cbn. auto.
  - pose proof (row_fields_badge year columns b1 b2) as Hf.
    destruct (row_fields year (mktr columns b1) columns) as [f1|e].
    + destruct Hf as (f2 & -> & Hd & Hfd & Hdesc & Ha). cbn [bind].
      rewrite Hd, Hdesc, Ha.
      destruct (get_account_and_description _ _ _ _) as [[[d a] o]|e];
        cbn [bind]; [|destruct e; try reflexivity; eexists; cbn; auto].
      eexists. split; [reflexivity|]. cbn [st_orders st_log st_rows].
      split; [reflexivity|]. split; [reflexivity|].
      apply Forall2_app; [exact Hsame|]. constructor; [|constructor].
      intros i Hi. apply csv_row_badge; auto.
    + rewrite Hf. cbn [bind].
      destruct e; try reflexivity; eexists; cbn; auto.
Qed.

Lemma row_body_pending_message year trx columns o m :
  row_body year trx columns o = Ok (Pending m) -> is_row_message m = true.
Proof.
  unfold row_body.
  destruct (column columns 1) as [c1|e]; cbn [bind]; [|discriminate].
  destruct (is_pending c1).
  - unfold pending_message.
    destruct (column columns 2) as [c2|e]; cbn [bind]; [|discriminate].
    destruct (attr (td_a c2)) as [a|e]; cbn [bind];
      [|destruct e; cbn [bind]; try discriminate];
      intros [= <-]; reflexivity.
  - destruct (row_fields year trx columns) as [f|e]; cbn [bind];
      [|discriminate].
    destruct (get_account_and_description _ _ _ _) as [[[d a] o']|e];
      cbn [bind]; discriminate.
Qed.

(** One turn of the loop does one thing: it passes a short row, or prints
    one message for a row it skips, or writes one record. *)
Lemma process_transaction_accounts year st trx st' :
  process_transaction year st trx = Ok st' ->
  (is_short trx = true /\ st' = st)
  \/ (is_short trx = false
      /\ ((exists m, is_row_message m = true /\ st' = log st m)
          \/ (exists r o,
                st' = mkstate o (st_rows st ++ [r])%list (st_log st)))).
Proof.
  unfold process_transaction, is_short.
  destruct (List.length (tr_columns trx) <? 5)%nat.
  - intros [= <-]. left. auto.
  - intros H. right. split; [reflexivity|]. revert H.
    destruct (row_body year trx (tr_columns trx) (st_orders st))
      as [[m|r o]|e] eqn:B.
    + intros [= <-]. left. exists m. split; [|reflexivity].
      exact (row_body_pending_message _ _ _ _ _ B).
    + intros [= <-]. right. eauto.
    + destruct e; try discriminate; intros [= <-]; left; eexists;
        (split; [|reflexivity]); reflexivity.
Qed.

Lemma process_transactions_accounts year trxs :
  forall st,
    snd (process_transactions year trxs st) = None ->
    exists rows messages,
      st_rows (fst (process_transactions year trxs st))
      = (st_rows st ++ rows)%list
      /\ st_log (fst (process_transactions year trxs st))
         = (st_log st ++ messages)%list
      /\ Forall (fun m => is_row_message m = true) messages
      /\ (List.length rows + List.length messages
          + List.length (filter is_short trxs) = List.length trxs)%nat.
Proof.
  induction trxs as [|trx trxs IH]; intros st;
    cbn [process_transactions filter].
  - intros _. exists [], []. rewrite !app_nil_r. repeat split; constructor.
  - destruct (process_transaction year st trx) as [st'|e] eqn:P;
      [|discriminate].
    intros Hend. destruct (IH st' Hend) as (rows & ms & Hr & Hl & Hm & Hn).
    destruct (process_transaction_accounts year st trx st' P)
      as [[Hs ->] | [Hs [(m & Hm' & ->) | (r & o & ->)]]]; rewrite Hs.
    + exists rows, ms. cbn [List.length]. repeat split; auto. lia.
    + exists rows, (m :: ms). rewrite Hr, Hl. cbn [log st_rows st_log].
      rewrite <- app_assoc. cbn [List.length app].
      repeat split; auto. lia.
    + exists (r :: rows), ms. rewrite Hr, Hl. cbn [st_rows st_log].
      rewrite <- app_assoc. cbn [List.length app].
      repeat split; auto. lia.
Qed.

(** When the program returns after the loop, every transaction row of the
    statement is accounted for once: the number of rows found is the
    number of records written, plus the number of messages printed for
    rows skipped as pending or for a parsing error, plus the number of rows
    with fewer than five cells. *)
Theorem every_row_is_accounted_for :
  forall w amex_path deliveroo_path output_path soup t ts,
    open_amex w amex_path = Opened soup ->
    amex_table_body soup = Some (t :: ts) ->
    let out := process_html_file w amex_path deliveroo_path output_path in
    out_end out = Returned ->
    exists before rows messages,
      out_messages out
      = (before
         ++ MsgFoundTransactions (List.length (t :: ts))
              (statement_year w soup)
         :: messages ++ [MsgConverted output_path; MsgImportHint])%list
      /\ out_csv out = Some (output_path, HEADER :: rows)
      /\ Forall (fun m => is_row_message m = true) messages
      /\ (List.length rows + List.length messages
          + List.length (filter is_short (t :: ts))
          = List.length (t :: ts))%nat.
Proof.
  intros w amex_path deliveroo_path output_path soup t ts Hopen Htable out.
  subst out.
  pose proof (statement_year_nonempty w soup) as Hyear.
  unfold process_html_file, statement_year in *. rewrite Hopen.
  destruct (parse_year_from_comment soup (now_year w)) as [m1 year].
  cbn [snd] in *. rewrite Hyear, Htable.
  destruct (parse_deliveroo_orders _ _) as [m2 [orders|e]];
    cbn [out_end]; [|discriminate].
  pose proof (process_transactions_accounts year (rev (t :: ts))
                (mkstate orders [] [])) as Hloop.
  destruct (process_transactions year (rev (t :: ts)) (mkstate orders [] []))
    as [st [e|]]; cbn [out_end out_messages out_csv fst snd] in *;
    [discriminate|].
  intros _. destruct (Hloop eq_refl) as (rows & ms & Hr & Hl & Hm & Hn).
  cbn [st_rows st_log app] in Hr, Hl.
  exists (m1 ++ m2)%list, rows, ms. rewrite Hr, Hl, <- app_assoc.
  split; [reflexivity|]. split; [reflexivity|]. split; [exact Hm|].
  rewrite filter_rev, !length_rev in Hn. exact Hn.
Qed.

End Further.

(** * The further properties on the documents of the examples *)

Lemma opened_statement_exits_for_missing_table_only_witness :
  1%Z = 1%Z /\ amex_table_body (mkamex [statement_comment] None) = None.
Proof.
  apply (opened_statement_exits_for_missing_table_only (lib := ascii_lib)
           (example_world None FileNotFound)
           "amex.html" "orders.html" "out.csv"
           (mkamex [statement_comment] None) 1%Z);
    [reflexivity|vm_compute; reflexivity].
Defined.

Lemma empty_table_writes_nothing_witness :
  out_csv (process_html_file (lib := ascii_lib)
             (example_world (Some []) (Opened two_orders))
             "amex.html" "orders.html" "out.csv") = None
  /\ out_end (process_html_file (lib := ascii_lib)
                (example_world (Some []) (Opened two_orders))
                "amex.html" "orders.html" "out.csv") = Returned
  /\ last_error
       (out_messages
          (process_html_file (lib := ascii_lib)
             (example_world (Some []) (Opened two_orders))
             "amex.html" "orders.html" "out.csv"))
     = Some MsgNoTransactions.
Proof.
  apply (empty_table_writes_nothing (lib := ascii_lib)
           (example_world (Some []) (Opened two_orders))
           "amex.html" "orders.html" "out.csv"
           (mkamex [statement_comment] (Some []))
           [MsgFoundOrders 2] two_orders_table);
    [reflexivity|reflexivity|vm_compute; reflexivity].
Defined.

Lemma main_writes_one_file_witness :
  main (lib := ascii_lib) mixed_world ["amex_to_gnucash.py"; "amex.html"]
  = mkoutcome [MsgUsage] None (SysExit 1).
Proof.
  apply (main_writes_one_file (lib := ascii_lib) mixed_world
           ["amex_to_gnucash.py"; "amex.html"]).
  cbn. lia.
Defined.

Lemma order_items_are_counted_or_skipped_witness :
  exists skips,
    [MsgSkipOrder AttributeError; MsgSkipOrder ValueError; MsgFoundOrders 1]
    = (skips
       ++ [MsgFoundOrders
             (List.length
                (filter (order_parses (lib := ascii_lib)) mixed_orders))])%list
    /\ count_orders gail_orders
       = List.length (filter (order_parses (lib := ascii_lib)) mixed_orders)
    /\ (List.length skips
        + List.length (filter (order_parses (lib := ascii_lib)) mixed_orders)
        = List.length mixed_orders)%nat
    /\ Forall (fun m => m = MsgSkipOrder AttributeError
                        \/ m = MsgSkipOrder ValueError) skips.
Proof.
  apply (order_items_are_counted_or_skipped (lib := ascii_lib)
           "orders.html" mixed_orders).
  vm_compute; reflexivity.
Defined.

Lemma parsed_table_is_well_formed_witness :
  distinct_keys two_orders_table
  /\ Forall (fun kv => snd kv <> []) two_orders_table.
Proof.
  apply (parsed_table_is_well_formed (lib := ascii_lib) two_orders []).
  vm_compute; reflexivity.
Defined.


Lemma a_call_leaves_the_other_keys_witness :
  dict_get ((one_pound_key, ["Honest Burgers"])
            :: [(eight_fifty_key, @nil string)]) one_pound_key
  = dict_get ((one_pound_key, ["Honest Burgers"]) :: gail_orders)
      one_pound_key.
Proof.
  apply (a_call_leaves_the_other_keys (lib := ascii_lib)
           "Deliveroo London" july_13 eight_fifty
           ((one_pound_key, ["Honest Burgers"]) :: gail_orders)
           "Deliveroo: GAIL's Bakery" "Despesas:Supermercado");
    vm_compute; reflexivity.
Defined.

Lemma rejected_order_amount_ends_the_program_witness :
  out_end
    (process_html_file (lib := ascii_lib)
       (example_world (Some example_rows) (Opened bad_amount_orders))
       "amex.html" "orders.html" "out.csv")
  = Unhandled InvalidOperation
  /\ out_csv
       (process_html_file (lib := ascii_lib)
          (example_world (Some example_rows) (Opened bad_amount_orders))
          "amex.html" "orders.html" "out.csv")
     = None.
Proof.
  destruct (rejected_order_amount_ends_the_program (lib := ascii_lib)
              (example_world (Some example_rows) (Opened bad_amount_orders))
              "amex.html" "orders.html" "out.csv"
              (mkamex [statement_comment] (Some example_rows))
              [ ["GAIL's Bakery"; "£ 8.50 • 13 July 2025"] ]
              ["Pizza Pilgrims"; "£ abc • 13 July 2025"] [])
    as (H1 & _ & H3 & _).
  - reflexivity.
  - reflexivity.
  - constructor; [left; vm_compute; reflexivity|constructor].
  - exists "Pizza Pilgrims", "£ abc • 13 July 2025", "£ abc",
      "13 July 2025".
    repeat split; vm_compute; reflexivity.
  - split; [exact H1|exact H3].
Defined.

Lemma every_account_is_configured_witness :
  Forall (fun r => exists account,
              nth_error r 2 = Some (Text account)
              /\ In account CONFIGURED_ACCOUNTS)
         (tl example_csv).
Proof.
  apply (every_account_is_configured (lib := ascii_lib)
           (example_world (Some example_rows) (Opened two_orders))
           "amex.html" "orders.html" "out.csv" "out.csv" example_csv).
  vm_compute; reflexivity.
Defined.

Lemma badge_changes_the_description_only_witness :
  match process_transaction (lib := ascii_lib) "2025" gail_state
          (mktr (tr_columns boots_row) None) with
  | Ok st1 =>
      exists st2,
        process_transaction (lib := ascii_lib) "2025" gail_state
          (mktr (tr_columns boots_row) (Some "TO")) = Ok st2
        /\ st_orders st2 = st_orders st1
        /\ st_log st2 = st_log st1
        /\ Forall2 (fun r1 r2 => forall i, i <> 1%nat ->
                                 nth_error r2 i = nth_error r1 i)
             (st_rows st1) (st_rows st2)
  | Raise e =>
      process_transaction (lib := ascii_lib) "2025" gail_state
        (mktr (tr_columns boots_row) (Some "TO")) = Raise e
  end.
Proof.
  apply (badge_changes_the_description_only (lib := ascii_lib) "2025"
           (tr_columns boots_row) None (Some "TO") gail_state).
Defined.

Lemma every_row_is_accounted_for_witness :
  exists before rows messages,
    out_messages (process_html_file (lib := ascii_lib) mixed_world
                    "amex.html" "orders.html" "out.csv")
    = (before
       ++ MsgFoundTransactions (List.length mixed_rows)
            (statement_year (lib := ascii_lib) mixed_world
               (mkamex [statement_comment] (Some mixed_rows)))
       :: messages ++ [MsgConverted "out.csv"; MsgImportHint])%list
    /\ out_csv (process_html_file (lib := ascii_lib) mixed_world
                  "amex.html" "orders.html" "out.csv")
       = Some ("out.csv", HEADER :: rows)
    /\ Forall (fun m => is_row_message m = true) messages
    /\ (List.length rows + List.length messages
        + List.length (filter is_short mixed_rows)
        = List.length mixed_rows)%nat.
Proof.
  apply (every_row_is_accounted_for (lib := ascii_lib) mixed_world
           "amex.html" "orders.html" "out.csv"
           (mkamex [statement_comment] (Some mixed_rows))
           refund_row
           [deliveroo_row; boots_row; pending_row; bad_date_row; short_row]);
    [reflexivity|reflexivity|vm_compute; reflexivity].
Defined.

Lemma process_transactions_calls_witness :
  snd (process_transactions (lib := ascii_lib) "2025" (rev example_rows)
         (mkstate two_orders_table [] [])) = None
  /\ st_orders
       (fst (process_transactions (lib := ascii_lib) "2025"
               (rev example_rows) (mkstate two_orders_table [] [])))
     = [(eight_fifty_key, ["Pizza Pilgrims"])]
  /\ exists new,
       st_rows
         (fst (process_transactions (lib := ascii_lib) "2025"
                 (rev example_rows) (mkstate two_orders_table [] [])))
       = ([] ++ new)%list
       /\ Forall2 (fun r out => exists f, r = csv_row f (fst out) (snd out))
            new
            [("BOOTS 0123", "Despesas:Saúde");
             ("Deliveroo: GAIL's Bakery", "Despesas:Supermercado");
             ("PAYMENT RECEIVED - THANK YOU",
              "Total:Ativo:Conta corrente:Monzo")].
Proof.
  apply (process_transactions_calls (lib := ascii_lib) "2025"
           (rev example_rows) (mkstate two_orders_table [] [])).
  vm_compute; reflexivity.
Defined.
